(** * Loop-packet buffering and caching of mqtt_utility.py

    A shallow embedding of the aggregation layer of
    [src/mqtt_dashboard/mqtt_utility.py]: the classes [ObsTuple],
    [ScalarBuffer], [VectorBuffer], [Buffer] and [CachedPacket] and the
    function [calc_trend].

    Conventions of the embedding.
    - A Python float is a real number ([R]); an epoch timestamp, an age and a
      unit-system code are integers ([Z]).
    - A value that may be [None] is an [option]; [None] is Python's [None].
    - An instance attribute that [__init__] creates only under a flag
      ([history], [day_sum], ...) is an [option] too: [None] means the
      attribute does not exist and reading it raises [AttributeError].
    - A method that can raise returns a [result]; a method that mutates
      [self] returns the new object. *)

From Stdlib Require Import ZArith Reals Lra Lia.
From Stdlib Require PrimFloat.
From stdpp Require Import base option list gmap strings.

Local Open Scope Z_scope.

(** ** Python exceptions and results *)

Inductive exn : Set :=
| AttributeError
| KeyError
| NameError
| TypeError
| ValueError
| ZeroDivisionError.

Inductive result (A : Type) : Type :=
| Ok (a : A)
| Raise (e : exn).

Arguments Ok {A} a.
Arguments Raise {A} e.

#[global] Instance result_ret : MRet result := fun A a => Ok a.
#[global] Instance result_bind : MBind result := fun A B f m =>
  match m with
  | Ok a => f a
  | Raise e => Raise e
  end.

(** [self.name] for an attribute that may not have been created. *)
Definition getattr {A} (a : option A) : result A :=
  match a with
  | Some x => Ok x
  | None => Raise AttributeError
  end.

(** [d[key]] for a dictionary lookup that found nothing. *)
Definition getitem {A} (a : option A) : result A :=
  match a with
  | Some x => Ok x
  | None => Raise KeyError
  end.

(** [x < y] and [x > y] on floats. *)
Definition Rltb (x y : R) : bool := if Rlt_dec x y then true else false.
Definition Rgtb (x y : R) : bool := Rltb y x.

(** [min(l)] of a list of timestamps; an empty list raises [ValueError]. *)
Definition py_min (l : list Z) : result Z :=
  match l with
  | [] => Raise ValueError
  | x :: l' => Ok (fold_left Z.min l' x)
  end.

(** [max(l, key=k)]: the first element whose key is the largest; an empty
    list raises [ValueError]. *)
Definition py_max_by {A} (k : A -> Z) (l : list A) : result A :=
  match l with
  | [] => Raise ValueError
  | x :: l' => Ok (fold_left (fun best a => if k best <? k a then a else best) l' x)
  end.

(** [sum(l)] of a list of floats. *)
Definition py_sum (l : list R) : R := fold_left Rplus l 0%R.

(** [x / n] with a float numerator: a zero divisor raises
    [ZeroDivisionError]. *)
Definition py_div (x : R) (n : nat) : result R :=
  match n with
  | O => Raise ZeroDivisionError
  | S _ => Ok (x / INR n)%R
  end.

(** [math.radians], [math.degrees] and [math.atan2]. *)
Definition radians (d : R) : R := (d * PI / 180)%R.
Definition degrees (r : R) : R := (r * 180 / PI)%R.

Definition atan2 (y x : R) : R :=
  if Rlt_dec 0 x then atan (y / x)
  else if Rlt_dec x 0 then
    (if Rle_dec 0 y then atan (y / x) + PI else atan (y / x) - PI)%R
  else if Rlt_dec 0 y then (PI / 2)%R
  else if Rlt_dec y 0 then (- PI / 2)%R
  else 0%R.

(** Names bound at the top level of mqtt_utility.py: its imports, functions,
    classes and configuration dictionaries. A bare name in a method body is
    looked up here (and then in Python's builtins, none of which is spelled
    in capitals only); the attributes of the enclosing class are not in
    scope. *)
Definition module_globals : list string :=
  ["math"; "socket"; "ssl"; "syslog"; "time"; "urllib2"; "urlparse"; "mqtt";
   "weewx"; "ValueTuple"; "convert";
   "logmsg"; "logcrit"; "logdbg"; "logdbg2"; "logdbg3"; "loginf"; "logerr";
   "MissingApiKey"; "UnknownServer"; "FailedPost";
   "MQTTPublish"; "WeatherUndergroundAPI";
   "Buffer"; "VectorBuffer"; "ScalarBuffer";
   "init_dict"; "add_functions"; "seed_functions";
   "ObsTuple"; "CachedPacket"; "calc_trend"; "obfuscate_password"].

(** [for obs in <name>] over a global name: an unbound name raises
    [NameError]; none of the bound names is a sequence of observation names,
    so iterating one of them raises [TypeError]. *)
Definition iter_global (name : string) : result (list string) :=
  if bool_decide (name ∈ module_globals) then Raise TypeError else Raise NameError.

(** Reading a bare name in a method body. *)
Definition load_global (name : string) : result unit :=
  if bool_decide (name ∈ module_globals) then Ok () else Raise NameError.

(** ** class ObsTuple *)

Record ObsTuple (A : Type) : Type := mkObs { value : A; ts : Z }.
Arguments mkObs {A} value ts.
Arguments value {A} o.
Arguments ts {A} o.

(** [Buffer.MAX_AGE] *)
Definition MAX_AGE : Z := 600.

(** The fields of a day-summary accumulator that the buffers read. *)
Record Stats : Type := mkStats {
  st_min : option R;
  st_mintime : option Z;
  st_max : option R;
  st_max_dir : option R;
  st_maxtime : option Z;
  st_sum : R;
  st_xsum : R;
  st_ysum : R;
  st_sumtime : R;
  st_wsum : R
}.

(** ** class ScalarBuffer *)

Module ScalarBuffer.

Record t : Type := mk {
  units : option Z;
  last : option R;
  lasttime : option Z;
  day_min : option R;
  day_mintime : option Z;
  day_max : option R;
  day_maxtime : option Z;
  history : option (list (ObsTuple R));
  history_full : option bool;
  day_sum : option R;
  nineam_sum : option R;
  interval_sum : option R
}.

Definition set_last (v : option R) (tm : option Z) (s : t) : t :=
  mk (units s) v tm (day_min s) (day_mintime s) (day_max s) (day_maxtime s)
     (history s) (history_full s) (day_sum s) (nineam_sum s) (interval_sum s).

Definition set_day_min (v : option R) (tm : option Z) (s : t) : t :=
  mk (units s) (last s) (lasttime s) v tm (day_max s) (day_maxtime s)
     (history s) (history_full s) (day_sum s) (nineam_sum s) (interval_sum s).

Definition set_day_max (v : option R) (tm : option Z) (s : t) : t :=
  mk (units s) (last s) (lasttime s) (day_min s) (day_mintime s) v tm
     (history s) (history_full s) (day_sum s) (nineam_sum s) (interval_sum s).

Definition set_history (h : list (ObsTuple R)) (s : t) : t :=
  mk (units s) (last s) (lasttime s) (day_min s) (day_mintime s)
     (day_max s) (day_maxtime s)
     (Some h) (history_full s) (day_sum s) (nineam_sum s) (interval_sum s).

Definition set_history_full (b : bool) (s : t) : t :=
  mk (units s) (last s) (lasttime s) (day_min s) (day_mintime s)
     (day_max s) (day_maxtime s)
     (history s) (Some b) (day_sum s) (nineam_sum s) (interval_sum s).

Definition set_day_sum (x : R) (s : t) : t :=
  mk (units s) (last s) (lasttime s) (day_min s) (day_mintime s)
     (day_max s) (day_maxtime s)
     (history s) (history_full s) (Some x) (nineam_sum s) (interval_sum s).

Definition set_nineam_sum (x : R) (s : t) : t :=
  mk (units s) (last s) (lasttime s) (day_min s) (day_mintime s)
     (day_max s) (day_maxtime s)
     (history s) (history_full s) (day_sum s) (Some x) (interval_sum s).

Definition set_interval_sum (x : R) (s : t) : t :=
  mk (units s) (last s) (lasttime s) (day_min s) (day_mintime s)
     (day_max s) (day_maxtime s)
     (history s) (history_full s) (day_sum s) (nineam_sum s) (Some x).

(** [__init__(stats, units, history, sum)] *)
Definition init (stats : option Stats) (u : option Z) (hist sum : bool) : t :=
  {| units := u;
     last := None;
     lasttime := None;
     day_min := match stats with Some st => st_min st | None => None end;
     day_mintime := match stats with Some st => st_mintime st | None => None end;
     day_max := match stats with Some st => st_max st | None => None end;
     day_maxtime := match stats with Some st => st_maxtime st | None => None end;
     history := if hist then Some [] else None;
     history_full := if hist then Some false else None;
     day_sum := if sum
                then Some (match stats with Some st => st_sum st | None => 0%R end)
                else None;
     nineam_sum := if sum then Some 0%R else None;
     interval_sum := if sum then Some 0%R else None |}.

(** [trim_history(ts)]. Every timestamp of the embedding is an integer, so
    the guard [a.ts is not None] of the list comprehension keeps every
    entry. *)
Definition trim_history (self : t) (now : Z) : result t :=
  let oldest_ts := now - MAX_AGE in
  h ← getattr (history self);
  m ← py_min (map ts h);
  let self := set_history_full (m <=? oldest_ts) self in
  h ← getattr (history self);
  mret (set_history (filter (fun s => oldest_ts < ts s) h) self).

(** [add_value(val, ts, hilo, history, sum)] *)
Definition add_value (self : t) (val : option R) (now : Z)
    (hilo hist sum : bool) : result t :=
  match val with
  | None => Ok self
  | Some v =>
    let self :=
      if match lasttime self with None => true | Some lt => lt <=? now end
      then set_last (Some v) (Some now) self
      else self in
    let self :=
      if hilo then
        let self :=
          if match day_min self with None => true | Some m => Rltb v m end
          then set_day_min (Some v) (Some now) self
          else self in
        if match day_max self with None => true | Some m => Rgtb v m end
        then set_day_max (Some v) (Some now) self
        else self
      else self in
    self ←
      (if hist then
         h ← getattr (history self);
         trim_history (set_history (h ++ [mkObs v now]) self) now
       else Ok self);
    if sum then
      d ← getattr (day_sum self);
      let self := set_day_sum (d + v)%R self in
      n ← getattr (nineam_sum self);
      let self := set_nineam_sum (n + v)%R self in
      i ← getattr (interval_sum self);
      mret (set_interval_sum (i + v)%R self)
    else Ok self
  end.

(** [day_reset()]. Assigning [self.day_sum] never raises, so the
    [except AttributeError] clause is dead and the attribute is created
    when it did not exist. *)
Definition day_reset (self : t) : t :=
  set_day_sum 0%R (set_day_max None None (set_day_min None None self)).

(** [nineam_reset()] *)
Definition nineam_reset (self : t) : t := set_nineam_sum 0%R self.

(** [interval_reset()] *)
Definition interval_reset (self : t) : t := set_interval_sum 0%R self.

(** [history_max(ts, age)]. The module never imports [itemgetter] (see
    [module_globals]), so the key of [max] cannot be built; were it bound
    to [operator.itemgetter], [itemgetter(1)] would select item 1 of an
    [ObsTuple], its timestamp. *)
Definition history_max (self : t) (now age : Z) : result (option (ObsTuple R)) :=
  let born := now - age in
  h ← getattr (history self);
  let snapshot := filter (fun a => born <= ts a) h in
  if (0 <? length snapshot)%nat then
    _ ← load_global "itemgetter";
    m ← py_max_by ts snapshot;
    mret (Some (mkObs (value m) (ts m)))
  else Ok None.

(** [history_avg(ts, age)] *)
Definition history_avg (self : t) (now age : Z) : result (option R) :=
  h ← getattr (history self);
  if (0 <? length h)%nat then
    let born := now - age in
    let rec := map value (filter (fun a => born <= ts a) h) in
    q ← py_div (py_sum rec) (length rec);
    mret (Some q)
  else Ok None.

(** The attributes that [add_value] reads under its flags exist, as they
    do when [__init__] was given the same flags. *)
Definition has_attrs (hist sum : bool) (sb : t) : Prop :=
  (hist = true -> is_Some (history sb)) /\
  (sum = true ->
   is_Some (day_sum sb) /\ is_Some (nineam_sum sb) /\ is_Some (interval_sum sb)).

(** Feeding a sequence of non-null samples, one [add_value] call each. *)
Definition add_values (self : t) (samples : list (R * Z))
    (hilo hist sum : bool) : result t :=
  fold_left (fun acc s => b ← acc; add_value b (Some s.1) s.2 hilo hist sum)
            samples (Ok self).

End ScalarBuffer.

(** ** class VectorBuffer *)

Module VectorBuffer.

(** A history entry holds [(speed, cos, sin)] of the compass bearing. *)
Definition vec : Type := (R * R * R)%type.

Record t : Type := mk {
  units : option Z;
  last : option (R * option R);
  lasttime : option Z;
  day_min : option R;
  day_mintime : option Z;
  day_max : option R;
  day_max_dir : option R;
  day_maxtime : option Z;
  history : option (list (ObsTuple vec));
  history_full : option bool;
  day_sum : option R;
  day_xsum : option R;
  day_ysum : option R;
  sumtime : option R;
  nineam_sum : option R;
  interval_sum : option R
}.

Definition set_last (v : option (R * option R)) (tm : option Z) (s : t) : t :=
  mk (units s) v tm (day_min s) (day_mintime s)
     (day_max s) (day_max_dir s) (day_maxtime s) (history s) (history_full s)
     (day_sum s) (day_xsum s) (day_ysum s) (sumtime s)
     (nineam_sum s) (interval_sum s).

Definition set_day_min (v : option R) (tm : option Z) (s : t) : t :=
  mk (units s) (last s) (lasttime s) v tm
     (day_max s) (day_max_dir s) (day_maxtime s) (history s) (history_full s)
     (day_sum s) (day_xsum s) (day_ysum s) (sumtime s)
     (nineam_sum s) (interval_sum s).

Definition set_day_max (v d : option R) (tm : option Z) (s : t) : t :=
  mk (units s) (last s) (lasttime s) (day_min s) (day_mintime s)
     v d tm (history s) (history_full s)
     (day_sum s) (day_xsum s) (day_ysum s) (sumtime s)
     (nineam_sum s) (interval_sum s).

Definition set_history (h : list (ObsTuple vec)) (s : t) : t :=
  mk (units s) (last s) (lasttime s) (day_min s) (day_mintime s)
     (day_max s) (day_max_dir s) (day_maxtime s) (Some h) (history_full s)
     (day_sum s) (day_xsum s) (day_ysum s) (sumtime s)
     (nineam_sum s) (interval_sum s).

Definition set_history_full (b : bool) (s : t) : t :=
  mk (units s) (last s) (lasttime s) (day_min s) (day_mintime s)
     (day_max s) (day_max_dir s) (day_maxtime s) (history s) (Some b)
     (day_sum s) (day_xsum s) (day_ysum s) (sumtime s)
     (nineam_sum s) (interval_sum s).

Definition set_day_sum (x : R) (s : t) : t :=
  mk (units s) (last s) (lasttime s) (day_min s) (day_mintime s)
     (day_max s) (day_max_dir s) (day_maxtime s) (history s) (history_full s)
     (Some x) (day_xsum s) (day_ysum s) (sumtime s)
     (nineam_sum s) (interval_sum s).

Definition set_day_xsum (x : R) (s : t) : t :=
  mk (units s) (last s) (lasttime s) (day_min s) (day_mintime s)
     (day_max s) (day_max_dir s) (day_maxtime s) (history s) (history_full s)
     (day_sum s) (Some x) (day_ysum s) (sumtime s)
     (nineam_sum s) (interval_sum s).

Definition set_day_ysum (x : R) (s : t) : t :=
  mk (units s) (last s) (lasttime s) (day_min s) (day_mintime s)
     (day_max s) (day_max_dir s) (day_maxtime s) (history s) (history_full s)
     (day_sum s) (day_xsum s) (Some x) (sumtime s)
     (nineam_sum s) (interval_sum s).

Definition set_sumtime (x : R) (s : t) : t :=
  mk (units s) (last s) (lasttime s) (day_min s) (day_mintime s)
     (day_max s) (day_max_dir s) (day_maxtime s) (history s) (history_full s)
     (day_sum s) (day_xsum s) (day_ysum s) (Some x)
     (nineam_sum s) (interval_sum s).

Definition set_nineam_sum (x : R) (s : t) : t :=
  mk (units s) (last s) (lasttime s) (day_min s) (day_mintime s)
     (day_max s) (day_max_dir s) (day_maxtime s) (history s) (history_full s)
     (day_sum s) (day_xsum s) (day_ysum s) (sumtime s)
     (Some x) (interval_sum s).

Definition set_interval_sum (x : R) (s : t) : t :=
  mk (units s) (last s) (lasttime s) (day_min s) (day_mintime s)
     (day_max s) (day_max_dir s) (day_maxtime s) (history s) (history_full s)
     (day_sum s) (day_xsum s) (day_ysum s) (sumtime s)
     (nineam_sum s) (Some x).

(** [__init__(stats, units, history, sum)] *)
Definition init (stats : option Stats) (u : option Z) (hist sum : bool) : t :=
  {| units := u;
     last := None;
     lasttime := None;
     day_min := match stats with Some st => st_min st | None => None end;
     day_mintime := match stats with Some st => st_mintime st | None => None end;
     day_max := match stats with Some st => st_max st | None => None end;
     day_max_dir := match stats with Some st => st_max_dir st | None => None end;
     day_maxtime := match stats with Some st => st_maxtime st | None => None end;
     history := if hist then Some [] else None;
     history_full := if hist then Some false else None;
     day_sum := if sum
                then Some (match stats with Some st => st_sum st | None => 0%R end)
                else None;
     day_xsum := if sum
                 then Some (match stats with Some st => st_xsum st | None => 0%R end)
                 else None;
     day_ysum := if sum
                 then Some (match stats with Some st => st_ysum st | None => 0%R end)
                 else None;
     sumtime := if sum
                then Some (match stats with Some st => st_sumtime st | None => 0%R end)
                else None;
     nineam_sum := if sum then Some 0%R else None;
     interval_sum := if sum then Some 0%R else None |}.

(** [trim_history(ts)] *)
Definition trim_history (self : t) (now : Z) : result t :=
  let oldest_ts := now - MAX_AGE in
  h ← getattr (history self);
  m ← py_min (map ts h);
  let self := set_history_full (m <=? oldest_ts) self in
  h ← getattr (history self);
  mret (set_history (filter (fun s => oldest_ts < ts s) h) self).

(** [add_value((w_speed, w_dir), ts, hilo=True, history=True, sum=True)] *)
Definition add_value (self : t) (val : option R * option R) (now : Z)
    (hilo hist sum : bool) : result t :=
  let '(w_speed, w_dir) := val in
  match w_speed with
  | None => Ok self
  | Some speed =>
    let self :=
      if hilo then
        let self :=
          if match day_min self with None => true | Some m => Rltb speed m end
          then set_day_min (Some speed) (Some now) self
          else self in
        if match day_max self with None => true | Some m => Rgtb speed m end
        then set_day_max (Some speed) w_dir (Some now) self
        else self
      else self in
    self ←
      (match hist, w_dir with
       | true, Some d =>
         h ← getattr (history self);
         trim_history
           (set_history
              (h ++ [mkObs (speed, cos (radians (90 - d)), sin (radians (90 - d)))
                           now])
              self)
           now
       | _, _ => Ok self
       end);
    self ←
      (if sum then
         s ← getattr (day_sum self);
         let self := set_day_sum (s + speed)%R self in
         self ←
           (match lasttime self with
            | Some lt =>
              if lt =? 0 then Ok self
              else
                st ← getattr (sumtime self);
                mret (set_sumtime (st + IZR (now - lt))%R self)
            | None => Ok self
            end);
         match w_dir with
         | Some d =>
           x ← getattr (day_xsum self);
           let self :=
             set_day_xsum (x + speed * cos (radians (90 - d)))%R self in
           y ← getattr (day_ysum self);
           mret (set_day_ysum (y + speed * sin (radians (90 - d)))%R self)
         | None => Ok self
         end
       else Ok self);
    if match lasttime self with None => true | Some lt => lt <=? now end
    then Ok (set_last (Some (speed, w_dir)) (Some now) self)
    else Ok self
  end.

(** [day_reset()] *)
Definition day_reset (self : t) : t :=
  set_day_sum 0%R (set_day_max None None None (set_day_min None None self)).

(** [nineam_reset()] *)
Definition nineam_reset (self : t) : t := set_nineam_sum 0%R self.

(** [interval_reset()] *)
Definition interval_reset (self : t) : t := set_interval_sum 0%R self.

(** The attributes that [add_value] reads under its flags exist, as they
    do when [__init__] was given the same flags. *)
Definition has_attrs (hist sum : bool) (vb : t) : Prop :=
  (hist = true -> is_Some (history vb)) /\
  (sum = true ->
   is_Some (day_sum vb) /\ is_Some (day_xsum vb) /\ is_Some (day_ysum vb) /\
   is_Some (sumtime vb)).

(** [x / y] on floats. *)
Definition fdiv (x y : R) : result R :=
  if Req_dec_T y 0 then Raise ZeroDivisionError else Ok (x / y)%R.

(** The property [day_vec_avg] *)
Definition day_vec_avg (self : t) : result R :=
  x ← getattr (day_xsum self);
  y ← getattr (day_ysum self);
  s ← getattr (sumtime self);
  q ← fdiv (x ^ 2 + y ^ 2)%R (s ^ 2)%R;
  mret (sqrt q).

(** The property [day_vec_dir], the bearing over the reals. In binary64 the
    sum [_dir + 360.0] of a tiny negative [_dir] rounds to 360.0; the
    arithmetic of these lines on doubles is [FloatBearing.day_vec_dir]. *)
Definition day_vec_dir (self : t) : result R :=
  y ← getattr (day_ysum self);
  x ← getattr (day_xsum self);
  let _dir := (90 - degrees (atan2 y x))%R in
  mret (if Rlt_dec _dir 0 then (_dir + 360)%R else _dir).

(** [history_max(ts, age)]: the key of [max] is [itemgetter(1)[0]]; the
    name [itemgetter] is unbound in the module (and an [itemgetter] object
    could not be subscripted). *)
Definition history_max (self : t) (now age : Z) : result (option (ObsTuple vec)) :=
  let born := now - age in
  h ← getattr (history self);
  let snapshot := filter (fun a => born <= ts a) h in
  if (0 <? length snapshot)%nat then
    _ ← load_global "itemgetter";
    Raise TypeError
  else Ok None.

(** [history_vec_avg(ts, age)]. The direction is the bearing over the
    reals; in binary64 the sum [_dir + 360.0] of a tiny negative [_dir]
    rounds to 360.0 (see [FloatBearing]). *)
Definition history_vec_avg (self : t) (now age : Z) : result (option (R * R)) :=
  let born := now - age in
  h ← getattr (history self);
  let rec := map value (filter (fun a => born <= ts a) h) in
  if (0 <? length rec)%nat then
    let '(x, y) :=
      fold_left
        (fun acc (sample : vec) =>
           (acc.1 + sample.1.1 * sample.1.2, acc.2 + sample.1.1 * sample.2)%R)
        rec (0%R, 0%R) in
    let _dir := (90 - degrees (atan2 y x))%R in
    let _dir := if Rlt_dec _dir 0 then (_dir + 360)%R else _dir in
    let _value := sqrt (x ^ 2 + y ^ 2) in
    Ok (Some (_value, _dir))
  else Ok None.

End VectorBuffer.

(** ** Loop packets and weewx value tuples *)

(** A packet is a dictionary. Its keys ['dateTime'] and ['usUnits'] hold
    integers and have a slot of their own; the outer [option] of a slot, and
    of a lookup in [obs], says whether the key is present, the inner one
    whether its value is [None]. *)
Record Packet : Type := mkPacket {
  dateTime : option (option Z);
  usUnits : option (option Z);
  obs : gmap string (option R)
}.

(** [key in packet] *)
Definition contains (p : Packet) (key : string) : bool :=
  if String.eqb key "dateTime" then bool_decide (is_Some (dateTime p))
  else if String.eqb key "usUnits" then bool_decide (is_Some (usUnits p))
  else bool_decide (is_Some (obs p !! key)).

(** [weewx.units.ValueTuple] *)
Record ValueTuple : Type := mkVT {
  vt_value : option R;
  vt_unit : string;
  vt_group : string
}.

(** ** class Buffer *)

Module Buffer.

Definition MANIFEST : list string :=
  ["outTemp"; "barometer"; "outHumidity"; "rain"; "rainRate";
   "humidex"; "windchill"; "heatindex"; "windSpeed"; "inTemp";
   "appTemp"; "dewpoint"; "windDir"; "UV"; "radiation"; "wind";
   "windGust"; "windGustDir"].

Definition HILO_MANIFEST : list string :=
  ["outTemp"; "barometer"; "outHumidity";
   "humidex"; "windchill"; "heatindex"; "windSpeed"; "inTemp";
   "appTemp"; "dewpoint"; "UV"; "radiation"; "windGust";
   "windGustDir"].

Definition HIST_MANIFEST : list string := ["windSpeed"; "windDir"; "wind"].

Definition SUM_MANIFEST : list string := ["rain"; "wind"].

(** The buffer is a dictionary of per-observation buffers that also
    carries three attributes of its own. *)
Inductive entry : Type :=
| Scalar (b : ScalarBuffer.t)
| Vector (b : VectorBuffer.t).

Record t : Type := mk {
  items : gmap string entry;
  primary_unit_system : option Z;
  last_windSpeed_ts : option Z;
  windrun : R
}.

Definition set_items (m : gmap string entry) (s : t) : t :=
  mk m (primary_unit_system s) (last_windSpeed_ts s) (windrun s).

Definition set_last_windSpeed_ts (tm : option Z) (s : t) : t :=
  mk (items s) (primary_unit_system s) tm (windrun s).

Definition set_windrun (w : R) (s : t) : t :=
  mk (items s) (primary_unit_system s) (last_windSpeed_ts s) w.

Definition entry_units (e : entry) : option Z :=
  match e with
  | Scalar b => ScalarBuffer.units b
  | Vector b => VectorBuffer.units b
  end.

Definition entry_day_reset (e : entry) : entry :=
  match e with
  | Scalar b => Scalar (ScalarBuffer.day_reset b)
  | Vector b => Vector (VectorBuffer.day_reset b)
  end.

Definition entry_nineam_reset (e : entry) : entry :=
  match e with
  | Scalar b => Scalar (ScalarBuffer.nineam_reset b)
  | Vector b => Vector (VectorBuffer.nineam_reset b)
  end.

(** [init_dict.get(obs, ScalarBuffer)(stats=None, units=..., history=...,
    sum=...)]: ['wind'] is the one vector observation. *)
Definition init_entry (name : string) (u : option Z) (hist sum : bool) : entry :=
  if String.eqb name "wind" then Vector (VectorBuffer.init None u hist sum)
  else Scalar (ScalarBuffer.init None u hist sum).

(** The timestamp of a packet as the buffers use it. [add_packet] lets no
    packet with a null ['dateTime'] through; the embedding gives such a
    packet no timestamp. *)
Definition packet_ts (p : Packet) : result Z :=
  d ← getitem (dateTime p);
  match d with
  | Some tm => Ok tm
  | None => Raise TypeError
  end.

(** [x * n / 1000.0] and [t - t0], the operands of the windrun increment;
    a [None] operand raises [TypeError]. *)
Definition py_sub_ts (a b : option Z) : result Z :=
  match a, b with
  | Some x, Some y => Ok (x - y)
  | _, _ => Raise TypeError
  end.

Definition py_mul (a : option R) (n : Z) : result R :=
  match a with
  | Some x => Ok (x * IZR n)%R
  | None => Raise TypeError
  end.

Section Units.

(** [weewx.units.getStandardUnitType] and [weewx.units.convertStd]. *)
Variable getStandardUnitType : option Z -> string -> string * string.
Variable convertStd : ValueTuple -> option Z -> ValueTuple.

(** The value of [packet[name]] expressed in the unit system [u]. *)
Definition packet_value (p : Packet) (name : string) (u : option Z)
    : result (option R) :=
  pu ← getitem (usUnits p);
  if bool_decide (u = pu) then getitem (obs p !! name)
  else
    let '(unit, group) := getStandardUnitType pu name in
    v ← getitem (obs p !! name);
    mret (vt_value (convertStd (mkVT v unit group) u)).

(** [add_value(packet, obs, hilo, hist, sum)] *)
Definition add_value (self : t) (p : Packet) (name : string)
    (hilo hist sum : bool) : result t :=
  self ←
    (match items self !! name with
     | Some _ => Ok self
     | None =>
       pu ← getitem (usUnits p);
       mret (set_items (<[name := init_entry name pu hist sum]> (items self)) self)
     end);
  e ← getitem (items self !! name);
  _value ← packet_value p name (entry_units e);
  now ← packet_ts p;
  match e with
  | Scalar b =>
    b' ← ScalarBuffer.add_value b _value now hilo hist sum;
    mret (set_items (<[name := Scalar b']> (items self)) self)
  | Vector _ => Raise TypeError
  end.

(** The windrun statement of [add_wind_value] with its
    [try ... except TypeError: pass]. *)
Definition update_windrun (self : t) (p : Packet) : result t :=
  if contains p "windSpeed" then
    speed ← getitem (obs p !! "windSpeed");
    d ← getitem (dateTime p);
    let self :=
      match py_sub_ts d (last_windSpeed_ts self) with
      | Ok dt =>
        match py_mul speed dt with
        | Ok x => set_windrun (windrun self + x / 1000)%R self
        | Raise _ => self
        end
      | Raise _ => self
      end in
    mret (set_last_windSpeed_ts d self)
  else Ok self.

(** [add_wind_value(packet, obs, hilo, hist, sum)] *)
Definition add_wind_value (self : t) (p : Packet) (name : string)
    (hilo hist sum : bool) : result t :=
  self ← add_value self p name hilo hist sum;
  self ← update_windrun self p;
  self ←
    (match items self !! "wind" with
     | Some _ => Ok self
     | None =>
       pu ← getitem (usUnits p);
       mret (set_items
               (<["wind" := Vector (VectorBuffer.init None pu true true)]>
                  (items self))
               self)
     end);
  e ← getitem (items self !! "wind");
  _value ← packet_value p "windSpeed" (entry_units e);
  now ← packet_ts p;
  match e with
  | Vector b =>
    b' ← VectorBuffer.add_value b (_value, mjoin (obs p !! "windDir")) now
           true true true;
    mret (set_items (<["wind" := Vector b']> (items self)) self)
  | Scalar _ => Raise TypeError
  end.

(** [add_functions.get(obs, Buffer.add_value)] *)
Definition add_func (name : string)
    : t -> Packet -> string -> bool -> bool -> bool -> result t :=
  if String.eqb name "windSpeed" then add_wind_value else add_value.

(** [add_packet(packet)] *)
Definition add_packet (self : t) (p : Packet) : result t :=
  d ← getitem (dateTime p);
  match d with
  | None => Ok self
  | Some _ =>
    fold_left
      (fun acc name =>
         b ← acc;
         add_func name b p name
           (bool_decide (name ∈ HILO_MANIFEST))
           (bool_decide (name ∈ HIST_MANIFEST))
           (bool_decide (name ∈ SUM_MANIFEST)))
      (filter (fun f => f ∈ MANIFEST) (map fst (map_to_list (obs p))))
      (Ok self)
  end.

End Units.

(** [clean(ts)]: neither buffer class defines [__getitem__], so the
    subscript [self[obs]['history']], the first thing the loop body
    evaluates after [self[obs]], raises [TypeError]. *)
Definition subscript (e : entry) (key : string) : result (list Z) := Raise TypeError.

Definition clean (self : t) (now : Z) : result t :=
  fold_left
    (fun acc name =>
       b ← acc;
       e ← getitem (items b !! name);
       stamps ← subscript e "history";
       m ← py_min stamps;
       _ ← load_global "old_ts";
       mret b)
    HIST_MANIFEST (Ok self).

(** A day-summary accumulator: a dictionary of per-observation statistics
    with a unit system. *)
Record DayStats : Type := mkDayStats {
  ds_unit_system : option Z;
  ds_stats : gmap string Stats
}.

(** The classes that [init_dict] chooses from. *)
Inductive ctor : Set := ScalarCtor | VectorCtor.

(** [init_dict.get(obs_type, default)] *)
Definition init_dict_get (name : string) (default : ctor) : ctor :=
  if String.eqb name "wind" then VectorCtor else default.

Definition construct (c : ctor) (stats : option Stats) (u : option Z)
    (hist sum : bool) : entry :=
  match c with
  | ScalarCtor => Scalar (ScalarBuffer.init stats u hist sum)
  | VectorCtor => Vector (VectorBuffer.init stats u hist sum)
  end.

(** [seed_scalar(stats, obs_type, hist, sum)] *)
Definition seed_scalar (self : t) (stats : DayStats) (obs_type : string)
    (hist sum : bool) : result t :=
  st ← getitem (ds_stats stats !! obs_type);
  mret (set_items
          (<[obs_type := construct (init_dict_get obs_type ScalarCtor) (Some st)
                           (ds_unit_system stats) hist sum]> (items self))
          self).

(** [seed_vector(stats, obs_type, hist, sum)] *)
Definition seed_vector (self : t) (stats : DayStats) (obs_type : string)
    (hist sum : bool) : result t :=
  st ← getitem (ds_stats stats !! obs_type);
  mret (set_items
          (<[obs_type := construct (init_dict_get obs_type VectorCtor) (Some st)
                           (ds_unit_system stats) hist sum]> (items self))
          self).

(** [seed_functions.get(obs, Buffer.seed_scalar)] *)
Definition seed_func (name : string)
    : t -> DayStats -> string -> bool -> bool -> result t :=
  if String.eqb name "wind" then seed_vector else seed_scalar.

(** The manifest observations of a day summary, as the loops of [__init__]
    run over them. *)
Definition manifest_keys (stats : DayStats) : list string :=
  filter (fun f => f ∈ MANIFEST) (map fst (map_to_list (ds_stats stats))).

Section Seed.

(** [weewx.units.getStandardUnitType] and [weewx.units.convert]. *)
Variable getStandardUnitType : option Z -> string -> string * string.
Variable convert : ValueTuple -> string -> ValueTuple.

(** [seed_windrun(day_stats)] *)
Definition seed_windrun (day_stats : DayStats) : result R :=
  match ds_stats day_stats !! "windSpeed" with
  | Some st =>
    let '(unit, group) := getStandardUnitType (ds_unit_system day_stats) "windSpeed" in
    let _wr_vt := mkVT (Some (st_wsum st)) unit group in
    match vt_value (convert _wr_vt "km_per_hour") with
    | Some _wr_km => Ok (_wr_km / 3600)%R
    | None => Raise TypeError
    end
  | None => Ok 0%R
  end.

(** [__init__(day_stats, additional_day_stats=None)] *)
Definition init (day_stats : DayStats) (additional_day_stats : option DayStats)
    : result t :=
  let self := mk ∅ None None 0%R in
  self ←
    fold_left
      (fun acc name =>
         b ← acc;
         seed_func name b day_stats name
           (bool_decide (name ∈ HIST_MANIFEST))
           (bool_decide (name ∈ SUM_MANIFEST)))
      (manifest_keys day_stats) (Ok self);
  self ←
    match additional_day_stats with
    | Some additional =>
      fold_left
        (fun acc name =>
           b ← acc;
           match items b !! name with
           | Some _ => Ok b
           | None =>
             seed_func name b additional name
               (bool_decide (name ∈ HIST_MANIFEST))
               (bool_decide (name ∈ SUM_MANIFEST))
           end)
        (manifest_keys additional) (Ok self)
    | None => Ok self
    end;
  w ← seed_windrun day_stats;
  mret (mk (items self) (ds_unit_system day_stats) None w).

End Seed.

(** The entries that [add_wind_value] works on are absent or are the
    buffers that [__init__] and [add_packet] create for them: a scalar
    ['windSpeed'] with a history and a vector ['wind'] with a history and
    sums. *)
Definition wind_ready (b : t) : Prop :=
  match items b !! "windSpeed" with
  | None => True
  | Some (Scalar sb) => ScalarBuffer.has_attrs true false sb
  | Some (Vector _) => False
  end /\
  match items b !! "wind" with
  | None => True
  | Some (Vector vb) => VectorBuffer.has_attrs true true vb
  | Some (Scalar _) => False
  end.

(** [start_of_day_reset()] *)
Definition start_of_day_reset (self : t) : result t :=
  fold_left
    (fun acc name =>
       b ← acc;
       e ← getitem (items b !! name);
       mret (set_items (<[name := entry_day_reset e]> (items b)) b))
    MANIFEST (Ok self).

(** [nineam_reset()]: the loop runs over the bare name [SUM]. *)
Definition nineam_reset (self : t) : result t :=
  names ← iter_global "SUM";
  fold_left
    (fun acc name =>
       b ← acc;
       e ← getitem (items b !! name);
       mret (set_items (<[name := entry_nineam_reset e]> (items b)) b))
    names (Ok self).

End Buffer.

(** ** class CachedPacket *)

Module CachedPacket.

Definition OBS : list string :=
  ["cloudbase"; "windDir"; "windrun"; "inHumidity"; "outHumidity";
   "barometer"; "radiation"; "rain"; "rainRate"; "windSpeed";
   "appTemp"; "dewpoint"; "heatindex"; "humidex"; "inTemp";
   "outTemp"; "windchill"; "UV"].

(** A cache entry, the dictionary [{'value': ..., 'ts': ...}]. *)
Record cached : Type := mkCached {
  c_value : option R;
  c_ts : option Z
}.

Record t : Type := mk {
  cache : gmap string cached;
  unit_system : option Z
}.

(** [__init__(rec)]; [clock] is [int(time.time() + 0.5)]. *)
Definition init (clock : Z) (rec : Packet) : t :=
  let _ts := match dateTime rec with Some d => d | None => Some clock end in
  {| cache :=
       fold_left
         (fun c _obs =>
            if contains rec _obs && contains rec "usUnits"
            then <[_obs := mkCached (mjoin (obs rec !! _obs)) _ts]> c
            else <[_obs := mkCached None _ts]> c)
         OBS ∅;
     unit_system := mjoin (usUnits rec) |}.

(** The loop of [update]: one assignment per non-null field. *)
Definition store (now : Z) (fields : gmap string (option R))
    (c : gmap string cached) : gmap string cached :=
  map_fold
    (fun name v acc =>
       match v with
       | Some x => <[name := mkCached (Some x) (Some now)]> acc
       | None => acc
       end)
    c fields.

Section Units.

(** [weewx.units.to_std_system] *)
Variable to_std_system : Packet -> Z -> Packet.

(** [update(packet, ts)] *)
Definition update (self : t) (p : Packet) (now : Z) : result t :=
  pu ← getitem (usUnits p);
  let '(us, p) :=
    match unit_system self with
    | None => (pu, p)
    | Some u =>
      if bool_decide (Some u = pu) then (Some u, p)
      else (Some u, to_std_system p u)
    end in
  mret {| cache := store now (obs p) (cache self); unit_system := us |}.

(** A run of [update] calls. *)
Definition updates (self : t) (ps : list (Packet * Z)) : result t :=
  fold_left (fun acc q => c ← acc; update c q.1 q.2) ps (Ok self).

End Units.

(** [get_value(obs, ts, max_age)] *)
Definition get_value (self : t) (name : string) (now max_age : Z)
    : result (option R) :=
  match cache self !! name with
  | Some e =>
    match c_ts e with
    | Some tm =>
      if bool_decide (now - tm <= max_age) then Ok (c_value e) else Ok None
    | None => Raise TypeError
    end
  | None => Ok None
  end.

(** [get_packet(ts=None, max_age=600)]; [clock] is
    [int(time.time() + 0.5)]. *)
Definition get_packet (clock : Z) (self : t) (now : option Z) (max_age : Z)
    : result Packet :=
  let now := match now with Some tm => tm | None => clock end in
  fields ←
    map_fold
      (fun name (_ : cached) acc =>
         m ← acc;
         v ← get_value self name now max_age;
         mret (<[name := v]> m))
      (Ok ∅) (cache self);
  mret (mkPacket (Some (Some now)) (Some (unit_system self)) fields).

End CachedPacket.

(** ** calc_trend *)

(** [now - then] on converted values: a [None] operand raises [TypeError]. *)
Definition py_sub (a b : option R) : result R :=
  match a, b with
  | Some x, Some y => Ok (x - y)%R
  | _, _ => Raise TypeError
  end.

Section Trend.

(** [db_manager.getRecord], [weewx.units.as_value_tuple] and
    [weewx.units.convert]. *)
Variable getRecord : Z -> Z -> option Packet.
Variable as_value_tuple : Packet -> string -> ValueTuple.
Variable convert : ValueTuple -> string -> ValueTuple.

(** [calc_trend(obs_type, now_vt, units, db_manager, then_ts, grace)] *)
Definition calc_trend (obs_type : string) (now_vt : ValueTuple)
    (units : string) (then_ts grace : Z) : result (option R) :=
  match vt_value now_vt with
  | None => Ok None
  | Some _ =>
    match getRecord then_ts grace with
    | None => Ok None
    | Some then_record =>
      if negb (contains then_record obs_type) then Ok None
      else
        let then_vt := as_value_tuple then_record obs_type in
        let now := vt_value (convert now_vt units) in
        let then_ := vt_value (convert then_vt units) in
        d ← py_sub now then_;
        mret (Some d)
    end
  end.

End Trend.

(** [weewx.units.getStandardUnitType] for wind speed in the METRIC system
    and [weewx.units.convertStd] of a value that is already in the target
    unit system. *)
Definition metric_speed_unit (us : option Z) (name : string) : string * string :=
  ("km_per_hour", "group_speed").

Definition convertStd_same_system (vt : ValueTuple) (us : option Z) : ValueTuple := vt.

(** [weewx.units.to_std_system] returns a packet that is already in the
    target unit system as it is. *)
Definition to_std_system_same (p : Packet) (us : Z) : Packet := p.

(** [weewx.units.convert] returns a value tuple that is already in the
    target unit as it is. *)
Definition convert_same_unit (vt : ValueTuple) (target : string) : ValueTuple := vt.

(** [weewx.units.as_value_tuple] of a temperature field of a METRIC record. *)
Definition as_value_tuple_degree_C (rec : Packet) (name : string) : ValueTuple :=
  mkVT (mjoin (obs rec !! name)) "degree_C" "group_temperature".

(** ** The bearing on doubles *)

(** Lines 877-880 of [day_vec_dir] (and 859-861 of [history_vec_avg]) as
    they run on IEEE binary64 numbers: [math.degrees(x)] is [x * radToDeg]
    with [radToDeg = 180.0 / Py_MATH_PI] (CPython's mathmodule.c);
    [math.atan2] is the C library's. *)
Module FloatBearing.
Import PrimFloat.

Definition Py_MATH_PI : float := 0x1.921fb54442d18p+1%float.

Definition radToDeg : float := (180 / Py_MATH_PI)%float.

Definition degrees (x : float) : float := (x * radToDeg)%float.

Section Libm.

Variable atan2 : float -> float -> float.

Definition day_vec_dir (day_ysum day_xsum : float) : float :=
  let _dir := (90 - degrees (atan2 day_ysum day_xsum))%float in
  if (_dir <? 0)%float then (_dir + 360)%float else _dir.

End Libm.

(** The component sums of one sample of speed 1.0 at 360 degrees:
    [1.0 * cos(radians(90.0 - 360.0))] is -1.8369701987210297e-16 and
    [1.0 * sin(radians(90.0 - 360.0))] is 1.0. *)
Definition north_xsum : float := (-0x1.a79394c9e8a0ap-53)%float.
Definition north_ysum : float := 1%float.

(** [atan2] as far as the north sample needs it: the C library returns for
    [(1.0, -1.8369701987210297e-16)] the double next above pi/2,
    1.5707963267948968. *)
Definition atan2_north (y x : float) : float := 0x1.921fb54442d19p+0%float.

End FloatBearing.

(** * Properties *)

(** ** Results *)

Lemma bind_Ok {A B} (m : result A) (f : A -> result B) (b : B) :
  m ≫= f = Ok b -> exists a, m = Ok a /\ f a = Ok b.
Proof. destruct m as [a|e]; [eauto | discriminate]. Qed.

Lemma Rltb_true (x y : R) : Rltb x y = true <-> (x < y)%R.
Proof. unfold Rltb. destruct (Rlt_dec x y); split; (done || lra). Qed.

Lemma Rltb_false (x y : R) : Rltb x y = false <-> (y <= x)%R.
Proof. unfold Rltb. destruct (Rlt_dec x y); split; (done || lra). Qed.

Lemma py_min_snoc (l : list Z) (x : Z) : exists m, py_min (l ++ [x]) = Ok m.
Proof. destruct l; simpl; eauto. Qed.

(** ** ScalarBuffer *)

Module ScalarFacts.
Import ScalarBuffer.

Lemma trim_history_Ok (sb : t) (h : list (ObsTuple R)) (x : ObsTuple R) (now : Z) :
  trim_history (set_history (h ++ [x]) sb) now
  = Ok (set_history (filter (fun s => now - MAX_AGE < ts s) (h ++ [x]))
          (set_history_full
             (match py_min (map ts (h ++ [x])) with
              | Ok m => m <=? now - MAX_AGE
              | Raise _ => false
              end)
             (set_history (h ++ [x]) sb))).
Proof.
  unfold trim_history. simpl.
  rewrite map_app. simpl.
  destruct (py_min_snoc (map ts h) (ts x)) as [m ->]. reflexivity.
Qed.

(** What one [add_value] call with hilo tracking does to the extremes. *)
Lemma add_value_hilo (sb : t) (v : R) (now : Z) (hist sum : bool) :
  has_attrs hist sum sb ->
  exists sb',
    add_value sb (Some v) now true hist sum = Ok sb' /\
    has_attrs hist sum sb' /\
    (day_min sb', day_mintime sb')
    = (if match day_min sb with None => true | Some m => Rltb v m end
       then (Some v, Some now) else (day_min sb, day_mintime sb)) /\
    (day_max sb', day_maxtime sb')
    = (if match day_max sb with None => true | Some m => Rgtb v m end
       then (Some v, Some now) else (day_max sb, day_maxtime sb)).
Proof.
  intros [Hh Hs]. unfold add_value.
  set (b1 := if match lasttime sb with Some lt => lt <=? now | None => true end
             then set_last (Some v) (Some now) sb else sb).
  set (cmin := match day_min b1 with None => true | Some m => Rltb v m end).
  set (b2 := if cmin then set_day_min (Some v) (Some now) b1 else b1).
  set (cmax := match day_max b2 with None => true | Some m => Rgtb v m end).
  set (b3 := if cmax then set_day_max (Some v) (Some now) b2 else b2).
  assert (E1 : history b3 = history sb /\ day_sum b3 = day_sum sb /\
               nineam_sum b3 = nineam_sum sb /\ interval_sum b3 = interval_sum sb).
  { subst b3 b2 b1. destruct cmax, cmin;
      destruct (match lasttime sb with Some lt => lt <=? now | None => true end);
      simpl; auto. }
  assert (Emin : day_min b1 = day_min sb /\ day_mintime b1 = day_mintime sb /\
                 day_max b1 = day_max sb /\ day_maxtime b1 = day_maxtime sb).
  { subst b1.
    destruct (match lasttime sb with Some lt => lt <=? now | None => true end);
      simpl; auto. }
  destruct Emin as (Em1 & Em2 & Em3 & Em4).
  assert (E3 : (day_min b3, day_mintime b3)
               = (if match day_min sb with None => true | Some m => Rltb v m end
                  then (Some v, Some now) else (day_min sb, day_mintime sb)) /\
               (day_max b3, day_maxtime b3)
               = (if match day_max sb with None => true | Some m => Rgtb v m end
                  then (Some v, Some now) else (day_max sb, day_maxtime sb))).
  { subst b3 cmax b2 cmin. rewrite <- Em1, <- Em2, <- Em3, <- Em4.
    destruct (match day_min b1 with None => true | Some m => Rltb v m end); simpl;
      destruct (match day_max b1 with None => true | Some m => Rgtb v m end);
      simpl; auto. }
  clearbody b3. clear b1 b2 cmin cmax Em1 Em2 Em3 Em4.
  destruct E1 as (Eh & Ed & En & Ei). destruct E3 as [E3 E4].
  assert (Hstep : exists b4,
             (if hist then
                h ← getattr (history b3);
                trim_history (set_history (h ++ [mkObs v now]) b3) now
              else Ok b3) = Ok b4 /\
             (hist = true -> is_Some (history b4)) /\
             day_sum b4 = day_sum b3 /\ nineam_sum b4 = nineam_sum b3 /\
             interval_sum b4 = interval_sum b3 /\
             day_min b4 = day_min b3 /\ day_mintime b4 = day_mintime b3 /\
             day_max b4 = day_max b3 /\ day_maxtime b4 = day_maxtime b3).
  { destruct hist.
    - destruct (Hh eq_refl) as [h Hhist]. rewrite Eh, Hhist. simpl.
      rewrite trim_history_Ok. eexists. split; [reflexivity|].
      simpl. repeat split; eauto.
    - exists b3. repeat split; auto. discriminate. }
  destruct Hstep as (b4 & -> & Hh4 & Ed4 & En4 & Ei4 & Emn & Emnt & Emx & Emxt).
  simpl.
  destruct sum.
  - destruct (Hs eq_refl) as ([d Hd] & [n Hn] & [i Hi]).
    rewrite Ed4, Ed, Hd. simpl. rewrite En4, En, Hn. simpl.
    rewrite Ei4, Ei, Hi. simpl.
    eexists. split; [reflexivity|]. simpl.
    split; [split; [exact Hh4 | intros _; repeat split; eauto]|].
    rewrite Emn, Emnt, Emx, Emxt. auto.
  - exists b4. split; [reflexivity|].
    split; [split; [exact Hh4 | discriminate]|].
    rewrite Emn, Emnt, Emx, Emxt. auto.
Qed.

Lemma add_values_snoc (sb : t) (l : list (R * Z)) (x : R * Z) (hilo hist sum : bool) :
  add_values sb (l ++ [x]) hilo hist sum
  = add_values sb l hilo hist sum ≫= fun b => add_value b (Some x.1) x.2 hilo hist sum.
Proof. unfold add_values. rewrite fold_left_app. reflexivity. Qed.

Lemma has_attrs_day_reset (hist sum : bool) (sb : t) :
  has_attrs hist sum sb -> has_attrs hist sum (day_reset sb).
Proof.
  intros [Hh Hs]. split; [exact Hh|].
  intros E. destruct (Hs E) as (_ & Hn & Hi). simpl. eauto.
Qed.

(** The invariant of a feed that starts with no extremes recorded: after a
    non-empty feed the maximum bounds every sample and carries the time of
    the first sample that equals it, and likewise the minimum. *)
Lemma add_values_extremes (hist sum : bool) (samples : list (R * Z)) (sb : t) :
  has_attrs hist sum sb ->
  day_min sb = None -> day_max sb = None ->
  exists sb',
    add_values sb samples true hist sum = Ok sb' /\
    has_attrs hist sum sb' /\
    ((samples = [] /\ day_min sb' = None /\ day_max sb' = None) \/
     (exists mx tmx mn tmn,
         day_max sb' = Some mx /\ day_maxtime sb' = Some tmx /\
         day_min sb' = Some mn /\ day_mintime sb' = Some tmn /\
         Forall (fun s => (s.1 <= mx)%R) samples /\
         Forall (fun s => (mn <= s.1)%R) samples /\
         (exists pre post, samples = pre ++ (mx, tmx) :: post /\
                           Forall (fun s => s.1 <> mx) pre) /\
         (exists pre post, samples = pre ++ (mn, tmn) :: post /\
                           Forall (fun s => s.1 <> mn) pre))).
Proof.
  intros Hattrs Hmin Hmax.
  induction samples as [|[v now] l IH] using rev_ind.
  - exists sb. split; [reflexivity|]. split; [exact Hattrs|]. left. auto.
  - destruct IH as (sb1 & Hrun & Hattrs1 & Hinv).
    rewrite add_values_snoc, Hrun. simpl.
    destruct (add_value_hilo sb1 v now hist sum Hattrs1)
      as (sb2 & Hadd & Hattrs2 & Emin & Emax).
    exists sb2. split; [exact Hadd|]. split; [exact Hattrs2|]. right.
    destruct Hinv as [(-> & Hmn & Hmx) | Hinv].
    + rewrite Hmn in Emin. rewrite Hmx in Emax.
      injection Emin as Emin Emint. injection Emax as Emax Emaxt.
      exists v, now, v, now. repeat split; auto.
      * constructor; [simpl; lra | constructor].
      * constructor; [simpl; lra | constructor].
      * exists [], []. split; [reflexivity | constructor].
      * exists [], []. split; [reflexivity | constructor].
    + destruct Hinv as (mx & tmx & mn & tmn & Hmx & Hmxt & Hmn & Hmnt
                        & Hle & Hge & Hfmx & Hfmn).
      rewrite Hmn, Hmnt in Emin. rewrite Hmx, Hmxt in Emax.
      assert (Hmaxpart : exists mx' tmx',
                 day_max sb2 = Some mx' /\ day_maxtime sb2 = Some tmx' /\
                 Forall (fun s => (s.1 <= mx')%R) (l ++ [(v, now)]) /\
                 exists pre post, l ++ [(v, now)] = pre ++ (mx', tmx') :: post /\
                                  Forall (fun s => s.1 <> mx') pre).
      { unfold Rgtb in Emax. destruct (Rltb mx v) eqn:Ecmp.
        - apply Rltb_true in Ecmp. injection Emax as E1 E2.
          exists v, now. repeat split; auto.
          + apply Forall_app. split.
            * eapply Forall_impl; [exact Hle|]. simpl. intros s Hs. lra.
            * constructor; [simpl; lra | constructor].
          + exists l, []. split; [reflexivity|].
            eapply Forall_impl; [exact Hle|]. simpl. intros s Hs. lra.
        - apply Rltb_false in Ecmp. injection Emax as E1 E2.
          exists mx, tmx. repeat split; auto.
          + apply Forall_app. split; [exact Hle|].
            constructor; [simpl; lra | constructor].
          + destruct Hfmx as (pre & post & -> & Hpre).
            exists pre, (post ++ [(v, now)]). split; [|exact Hpre].
            rewrite <- app_assoc. reflexivity. }
      assert (Hminpart : exists mn' tmn',
                 day_min sb2 = Some mn' /\ day_mintime sb2 = Some tmn' /\
                 Forall (fun s => (mn' <= s.1)%R) (l ++ [(v, now)]) /\
                 exists pre post, l ++ [(v, now)] = pre ++ (mn', tmn') :: post /\
                                  Forall (fun s => s.1 <> mn') pre).
      { destruct (Rltb v mn) eqn:Ecmp.
        - apply Rltb_true in Ecmp. injection Emin as E1 E2.
          exists v, now. repeat split; auto.
          + apply Forall_app. split.
            * eapply Forall_impl; [exact Hge|]. simpl. intros s Hs. lra.
            * constructor; [simpl; lra | constructor].
          + exists l, []. split; [reflexivity|].
            eapply Forall_impl; [exact Hge|]. simpl. intros s Hs. lra.
        - apply Rltb_false in Ecmp. injection Emin as E1 E2.
          exists mn, tmn. repeat split; auto.
          + apply Forall_app. split; [exact Hge|].
            constructor; [simpl; lra | constructor].
          + destruct Hfmn as (pre & post & -> & Hpre).
            exists pre, (post ++ [(v, now)]). split; [|exact Hpre].
            rewrite <- app_assoc. reflexivity. }
      destruct Hmaxpart as (mx' & tmx' & H1 & H2 & H3 & H4).
      destruct Hminpart as (mn' & tmn' & H5 & H6 & H7 & H8).
      exists mx', tmx', mn', tmn'. repeat split; auto.
Qed.

(** C1. Start from a buffer cleared by [day_reset()] and feed any non-empty
    sequence of non-null samples through [add_value] with hilo tracking
    (the attributes that the history and sum flags need being present).
    Every call returns, and afterwards [day_min <= each value <= day_max],
    [day_maxtime] is the timestamp of the first sample whose value is
    [day_max], and [day_mintime] that of the first sample whose value is
    [day_min]. *)
Theorem hilo_envelope (hist sum : bool) (sb : t) (samples : list (R * Z)) :
  has_attrs hist sum sb ->
  samples <> [] ->
  exists sb' mx tmx mn tmn,
    add_values (day_reset sb) samples true hist sum = Ok sb' /\
    day_max sb' = Some mx /\ day_maxtime sb' = Some tmx /\
    day_min sb' = Some mn /\ day_mintime sb' = Some tmn /\
    Forall (fun s => (mn <= s.1 <= mx)%R) samples /\
    (exists pre post, samples = pre ++ (mx, tmx) :: post /\
                      Forall (fun s => s.1 <> mx) pre) /\
    (exists pre post, samples = pre ++ (mn, tmn) :: post /\
                      Forall (fun s => s.1 <> mn) pre).
Proof.
  intros Hattrs Hne.
  destruct (add_values_extremes hist sum samples (day_reset sb))
    as (sb' & Hrun & _ & Hinv).
  - apply has_attrs_day_reset, Hattrs.
  - reflexivity.
  - reflexivity.
  - destruct Hinv as [(E & _) | Hinv]; [contradiction|].
    destruct Hinv as (mx & tmx & mn & tmn & H1 & H2 & H3 & H4 & Hle & Hge & H5 & H6).
    exists sb', mx, tmx, mn, tmn. repeat split; auto.
    apply Forall_forall. intros s Hs.
    rewrite Forall_forall in Hle, Hge. split; [apply Hge | apply Hle]; exact Hs.
Qed.

Lemma hilo_envelope_witness :
  exists sb' mx tmx mn tmn,
    add_values (day_reset (init None (Some 16) false false))
      [(15%R, 2000); (5%R, 3000); (12%R, 4000)] true false false = Ok sb' /\
    day_max sb' = Some mx /\ day_maxtime sb' = Some tmx /\
    day_min sb' = Some mn /\ day_mintime sb' = Some tmn /\
    Forall (fun s => (mn <= s.1 <= mx)%R) [(15%R, 2000); (5%R, 3000); (12%R, 4000)] /\
    (exists pre post,
        [(15%R, 2000); (5%R, 3000); (12%R, 4000)] = pre ++ (mx, tmx) :: post /\
        Forall (fun s => s.1 <> mx) pre) /\
    (exists pre post,
        [(15%R, 2000); (5%R, 3000); (12%R, 4000)] = pre ++ (mn, tmn) :: post /\
        Forall (fun s => s.1 <> mn) pre).
Proof.
  apply (hilo_envelope false false (init None (Some 16) false false)
           [(15%R, 2000); (5%R, 3000); (12%R, 4000)]).
  - split; discriminate.
  - discriminate.
Defined.

(** C9. On the history [(5, 100); (3, 200)] [history_max] returns no
    maximum: the window is not empty, the name [itemgetter] that builds the
    key of [max] is bound nowhere in the module, and the call raises
    [NameError]. [history_avg] guards on the whole history, not on the
    entries inside the window: with the one entry [(5, 100)] and the window
    starting at 990 it divides by zero and raises [ZeroDivisionError]
    instead of returning null. *)
Theorem history_stats_diverge :
  history_max
    (set_history [mkObs 5%R 100; mkObs 3%R 200] (init None (Some 16) true false))
    200 600
  = Raise NameError /\
  history_avg
    (set_history [mkObs 5%R 100] (init None (Some 16) true false)) 1000 10
  = Raise ZeroDivisionError.
Proof. split; reflexivity. Qed.

End ScalarFacts.

(** ** History trimming *)

Module HistoryFacts.

Lemma filter_recent {A} (now : Z) (h : list (ObsTuple A)) :
  Forall (fun e => now - ts e < MAX_AGE)
         (filter (fun s => now - MAX_AGE < ts s) h).
Proof.
  apply Forall_forall. intros e He.
  apply list_elem_of_filter in He. destruct He as [He _]. lia.
Qed.

Lemma scalar_add_value_history (sb : ScalarBuffer.t) (h : list (ObsTuple R))
    (v : R) (now : Z) (hilo sum : bool) :
  ScalarBuffer.has_attrs true sum sb ->
  ScalarBuffer.history sb = Some h ->
  exists sb',
    ScalarBuffer.add_value sb (Some v) now hilo true sum = Ok sb' /\
    ScalarBuffer.history sb'
    = Some (filter (fun s => now - MAX_AGE < ts s) (h ++ [mkObs v now])).
Proof.
  intros [_ Hs] Hh. unfold ScalarBuffer.add_value.
  set (b3 := if hilo then _ else _).
  assert (E : ScalarBuffer.history b3 = Some h /\
              ScalarBuffer.day_sum b3 = ScalarBuffer.day_sum sb /\
              ScalarBuffer.nineam_sum b3 = ScalarBuffer.nineam_sum sb /\
              ScalarBuffer.interval_sum b3 = ScalarBuffer.interval_sum sb).
  { subst b3. repeat case_match; simpl; auto. }
  clearbody b3. destruct E as (Eh & Ed & En & Ei).
  rewrite Eh. simpl. rewrite ScalarFacts.trim_history_Ok. simpl.
  destruct sum.
  - destruct (Hs eq_refl) as ([d Hd] & [n Hn] & [i Hi]).
    rewrite Ed, Hd. simpl. rewrite En, Hn. simpl. rewrite Ei, Hi. simpl.
    eexists. split; reflexivity.
  - eexists. split; reflexivity.
Qed.

Lemma vector_trim_history_Ok (vb : VectorBuffer.t)
    (l : list (ObsTuple VectorBuffer.vec)) (now : Z) :
  l <> [] ->
  exists full,
    VectorBuffer.trim_history (VectorBuffer.set_history l vb) now
    = Ok (VectorBuffer.set_history
            (filter (fun s => now - MAX_AGE < ts s) l)
            (VectorBuffer.set_history_full full
               (VectorBuffer.set_history l vb))).
Proof.
  intros Hl. unfold VectorBuffer.trim_history. simpl.
  destruct l as [|x l]; [contradiction|]. simpl. eauto.
Qed.

#[local] Arguments VectorBuffer.trim_history : simpl never.

Lemma vector_add_value_history (vb : VectorBuffer.t)
    (h : list (ObsTuple VectorBuffer.vec)) (speed d : R) (now : Z)
    (hilo sum : bool) :
  VectorBuffer.has_attrs true sum vb ->
  VectorBuffer.history vb = Some h ->
  exists vb',
    VectorBuffer.add_value vb (Some speed, Some d) now hilo true sum = Ok vb' /\
    VectorBuffer.history vb'
    = Some (filter (fun s => now - MAX_AGE < ts s)
              (h ++ [mkObs (speed, cos (radians (90 - d)), sin (radians (90 - d)))
                           now])).
Proof.
  intros [_ Hs] Hh. unfold VectorBuffer.add_value.
  set (b1 := if hilo then _ else _).
  assert (E : VectorBuffer.history b1 = Some h /\
              VectorBuffer.day_sum b1 = VectorBuffer.day_sum vb /\
              VectorBuffer.day_xsum b1 = VectorBuffer.day_xsum vb /\
              VectorBuffer.day_ysum b1 = VectorBuffer.day_ysum vb /\
              VectorBuffer.sumtime b1 = VectorBuffer.sumtime vb /\
              VectorBuffer.lasttime b1 = VectorBuffer.lasttime vb).
  { subst b1. repeat case_match; simpl; repeat split; auto. }
  clearbody b1. destruct E as (Eh & Ed & Ex & Ey & Es & El).
  rewrite Eh. simpl.
  match goal with
  | |- context [VectorBuffer.trim_history (VectorBuffer.set_history ?l ?b) ?n] =>
    destruct (vector_trim_history_Ok b l n) as [full ->];
      [destruct h; discriminate|]
  end.
  simpl.
  destruct sum.
  - destruct (Hs eq_refl) as ([s0 Hd] & [x0 Hx] & [y0 Hy] & [t0 Ht]).
    rewrite Ed, Hd. simpl. rewrite El.
    destruct (VectorBuffer.lasttime vb) as [lt|]; simpl.
    + destruct (lt =? 0); simpl.
      * rewrite Ex, Hx. simpl. rewrite Ey, Hy. simpl. rewrite El. simpl.
        destruct (lt <=? now); eexists; split; reflexivity.
      * rewrite Es, Ht. simpl. rewrite Ex, Hx. simpl. rewrite Ey, Hy. simpl.
        rewrite El. simpl.
        destruct (lt <=? now); eexists; split; reflexivity.
    + rewrite Ex, Hx. simpl. rewrite Ey, Hy. simpl. rewrite El. simpl.
      eexists; split; reflexivity.
  - simpl. rewrite El.
    destruct (VectorBuffer.lasttime vb) as [lt|]; simpl.
    + destruct (lt <=? now); eexists; split; reflexivity.
    + eexists; split; reflexivity.
Qed.

(** [add_value] on a vector buffer whose attributes exist returns, whatever
    the value, and keeps the attributes. *)
Lemma vector_add_value_total (vb : VectorBuffer.t) (val : option R * option R)
    (now : Z) (hilo sum : bool) :
  VectorBuffer.has_attrs true sum vb ->
  exists vb',
    VectorBuffer.add_value vb val now hilo true sum = Ok vb' /\
    VectorBuffer.has_attrs true sum vb'.
Proof.
  intros Hattrs. destruct val as [[speed|] w_dir]; [|exists vb; split; auto].
  destruct Hattrs as [Hh Hs]. destruct (Hh eq_refl) as [h Hhist].
  unfold VectorBuffer.add_value.
  set (b1 := if hilo then _ else _).
  assert (E : VectorBuffer.history b1 = Some h /\
              VectorBuffer.day_sum b1 = VectorBuffer.day_sum vb /\
              VectorBuffer.day_xsum b1 = VectorBuffer.day_xsum vb /\
              VectorBuffer.day_ysum b1 = VectorBuffer.day_ysum vb /\
              VectorBuffer.sumtime b1 = VectorBuffer.sumtime vb /\
              VectorBuffer.lasttime b1 = VectorBuffer.lasttime vb).
  { subst b1. repeat case_match; simpl; repeat split; auto. }
  clearbody b1. destruct E as (Eh & Ed & Ex & Ey & Es & El).
  assert (Hstep : exists b2,
             match w_dir with
             | Some d =>
               h0 ← getattr (VectorBuffer.history b1);
               VectorBuffer.trim_history
                 (VectorBuffer.set_history
                    (h0 ++ [mkObs (speed, cos (radians (90 - d)),
                                   sin (radians (90 - d))) now]) b1) now
             | None => Ok b1
             end = Ok b2 /\
             is_Some (VectorBuffer.history b2) /\
             VectorBuffer.day_sum b2 = VectorBuffer.day_sum vb /\
             VectorBuffer.day_xsum b2 = VectorBuffer.day_xsum vb /\
             VectorBuffer.day_ysum b2 = VectorBuffer.day_ysum vb /\
             VectorBuffer.sumtime b2 = VectorBuffer.sumtime vb /\
             VectorBuffer.lasttime b2 = VectorBuffer.lasttime vb).
  { destruct w_dir as [d|].
    - rewrite Eh. simpl.
      match goal with
      | |- context [VectorBuffer.trim_history (VectorBuffer.set_history ?l ?b) ?n] =>
        destruct (vector_trim_history_Ok b l n) as [full ->];
          [destruct h; discriminate|]
      end.
      eexists. split; [reflexivity|]. simpl. repeat split; eauto.
    - exists b1. rewrite Eh. repeat split; eauto. }
  destruct Hstep as (b2 & -> & Hh2 & Ed2 & Ex2 & Ey2 & Es2 & El2).
  clear Eh Ed Ex Ey Es El b1. simpl.
  destruct sum.
  - destruct (Hs eq_refl) as ([s0 Hd] & [x0 Hx] & [y0 Hy] & [t0 Ht]).
    rewrite Ed2, Hd. simpl. rewrite El2.
    assert (Hsum : exists b3,
               match VectorBuffer.lasttime vb with
               | Some lt =>
                 if lt =? 0 then Ok (VectorBuffer.set_day_sum (s0 + speed) b2)
                 else
                   st ← getattr (VectorBuffer.sumtime b2);
                   mret (VectorBuffer.set_sumtime (st + IZR (now - lt))
                           (VectorBuffer.set_day_sum (s0 + speed) b2))
               | None => Ok (VectorBuffer.set_day_sum (s0 + speed) b2)
               end = Ok b3 /\
               is_Some (VectorBuffer.history b3) /\
               is_Some (VectorBuffer.day_sum b3) /\
               VectorBuffer.day_xsum b3 = Some x0 /\
               VectorBuffer.day_ysum b3 = Some y0 /\
               is_Some (VectorBuffer.sumtime b3) /\
               VectorBuffer.lasttime b3 = VectorBuffer.lasttime vb).
    { destruct (VectorBuffer.lasttime vb) as [lt|] eqn:Elt.
      - destruct (lt =? 0).
        + eexists. split; [reflexivity|]. simpl.
          rewrite Ex2, Ey2, Es2, Ht. repeat split; eauto.
        + rewrite Es2, Ht. simpl. eexists. split; [reflexivity|]. simpl.
          rewrite Ex2, Ey2. repeat split; eauto.
      - eexists. split; [reflexivity|]. simpl.
        rewrite Ex2, Ey2, Es2, Ht. repeat split; eauto. }
    destruct Hsum as (b3 & -> & Hh3 & Hd3 & Hx3 & Hy3 & Ht3 & El3). simpl.
    destruct w_dir as [d|].
    + rewrite Hx3. simpl. rewrite Hy3. simpl. rewrite El3.
      destruct (match VectorBuffer.lasttime vb with
                | Some lt => lt <=? now | None => true end);
        eexists; (split; [reflexivity|]); simpl;
        (split; [intros _; exact Hh3 | intros _; repeat split; eauto]).
    + simpl. rewrite El3.
      destruct (match VectorBuffer.lasttime vb with
                | Some lt => lt <=? now | None => true end);
        eexists; (split; [reflexivity|]); simpl;
        (split; [intros _; exact Hh3
                | intros _; simpl; rewrite Hx3, Hy3; repeat split; eauto]).
  - simpl. rewrite El2.
    destruct (match VectorBuffer.lasttime vb with
              | Some lt => lt <=? now | None => true end);
      eexists; (split; [reflexivity|]); simpl;
      (split; [intros _; exact Hh2 | discriminate]).
Qed.

(** C7. After an [add_value] of a non-null value at [now] on a buffer that
    keeps a history (with a non-null direction for the vector buffer), the
    call has returned and every retained entry [e] of the history
    satisfies [now - e.ts < MAX_AGE]. *)
Theorem history_trim_invariant (sb : ScalarBuffer.t) (vb : VectorBuffer.t)
    (v speed d : R) (now : Z) (hilo sum : bool) :
  ScalarBuffer.has_attrs true sum sb ->
  VectorBuffer.has_attrs true sum vb ->
  (exists sb' h,
      ScalarBuffer.add_value sb (Some v) now hilo true sum = Ok sb' /\
      ScalarBuffer.history sb' = Some h /\
      Forall (fun e => now - ts e < MAX_AGE) h) /\
  (exists vb' h,
      VectorBuffer.add_value vb (Some speed, Some d) now hilo true sum = Ok vb' /\
      VectorBuffer.history vb' = Some h /\
      Forall (fun e => now - ts e < MAX_AGE) h).
Proof.
  intros Hsb Hvb. split.
  - destruct (proj1 Hsb eq_refl) as [h Hh].
    destruct (scalar_add_value_history sb h v now hilo sum Hsb Hh)
      as (sb' & Hadd & Hhist).
    exists sb'. eexists. split; [exact Hadd|]. split; [exact Hhist|].
    apply filter_recent.
  - destruct (proj1 Hvb eq_refl) as [h Hh].
    destruct (vector_add_value_history vb h speed d now hilo sum Hvb Hh)
      as (vb' & Hadd & Hhist).
    exists vb'. eexists. split; [exact Hadd|]. split; [exact Hhist|].
    apply filter_recent.
Qed.

Lemma history_trim_invariant_witness :
  (exists sb' h,
      ScalarBuffer.add_value
        (ScalarBuffer.set_history [mkObs 5%R 3000; mkObs 3%R 3400; mkObs 4%R 3900]
           (ScalarBuffer.init None (Some 16) true false))
        (Some 12%R) 4000 true true false = Ok sb' /\
      ScalarBuffer.history sb' = Some h /\
      Forall (fun e => 4000 - ts e < MAX_AGE) h) /\
  (exists vb' h,
      VectorBuffer.add_value
        (VectorBuffer.set_history
           [mkObs (5%R, 1%R, 0%R) 3000; mkObs (3%R, 0%R, 1%R) 3400;
            mkObs (4%R, 1%R, 0%R) 3900]
           (VectorBuffer.init None (Some 16) true false))
        (Some 7%R, Some 90%R) 4000 true true false = Ok vb' /\
      VectorBuffer.history vb' = Some h /\
      Forall (fun e => 4000 - ts e < MAX_AGE) h).
Proof.
  apply (history_trim_invariant
           (ScalarBuffer.set_history [mkObs 5%R 3000; mkObs 3%R 3400; mkObs 4%R 3900]
              (ScalarBuffer.init None (Some 16) true false))
           (VectorBuffer.set_history
              [mkObs (5%R, 1%R, 0%R) 3000; mkObs (3%R, 0%R, 1%R) 3400;
               mkObs (4%R, 1%R, 0%R) 3900]
              (VectorBuffer.init None (Some 16) true false))
           12%R 7%R 90%R 4000 true false).
  - split; [intros _; simpl; eauto | discriminate].
  - split; [intros _; simpl; eauto | discriminate].
Defined.

End HistoryFacts.

(** ** VectorBuffer *)

Module VectorFacts.
Import VectorBuffer.

Lemma sqrt_quotient_square (a s : R) :
  (0 < s)%R -> sqrt (a / s ^ 2) = (sqrt a / s)%R.
Proof.
  intros Hs.
  rewrite sqrt_div_alt by nra.
  rewrite sqrt_pow2 by lra. reflexivity.
Qed.

(** X9. With the component sums [x], [y] and a positive [sumtime] [s],
    [day_vec_avg] returns [sqrt (x^2 + y^2) / s], the length of the summed
    vector over the accumulated seconds. *)
Theorem day_vec_avg_formula (vb : t) (x y s : R) :
  day_xsum vb = Some x ->
  day_ysum vb = Some y ->
  sumtime vb = Some s ->
  (0 < s)%R ->
  day_vec_avg vb = Ok (sqrt (x ^ 2 + y ^ 2) / s)%R.
Proof.
  intros Hx Hy Hs Hpos.
  unfold day_vec_avg. rewrite Hx, Hy, Hs. simpl.
  unfold fdiv. destruct (Req_dec_T (s * (s * 1)) 0) as [E|E]; [nra|].
  simpl. f_equal. apply (sqrt_quotient_square (x * (x * 1) + y * (y * 1)) s Hpos).
Qed.

Lemma day_vec_avg_formula_witness :
  day_vec_avg
    (set_sumtime 5 (set_day_ysum 4 (set_day_xsum 3 (init None (Some 16) true true))))
  = Ok (sqrt (3 ^ 2 + 4 ^ 2) / 5)%R.
Proof.
  apply (day_vec_avg_formula
           (set_sumtime 5
              (set_day_ysum 4 (set_day_xsum 3 (init None (Some 16) true true))))
           3%R 4%R 5%R).
  - reflexivity.
  - reflexivity.
  - reflexivity.
  - lra.
Defined.

(** C10. [day_reset()] sets the five day extremes to [None] and [day_sum]
    to 0 and leaves every other attribute as it was, so the derived
    [day_vec_avg] and [day_vec_dir] are what they were before the reset. *)
Theorem day_reset_frame (vb : t) :
  day_min (day_reset vb) = None /\
  day_mintime (day_reset vb) = None /\
  day_max (day_reset vb) = None /\
  day_max_dir (day_reset vb) = None /\
  day_maxtime (day_reset vb) = None /\
  day_sum (day_reset vb) = Some 0%R /\
  day_xsum (day_reset vb) = day_xsum vb /\
  day_ysum (day_reset vb) = day_ysum vb /\
  sumtime (day_reset vb) = sumtime vb /\
  nineam_sum (day_reset vb) = nineam_sum vb /\
  interval_sum (day_reset vb) = interval_sum vb /\
  last (day_reset vb) = last vb /\
  lasttime (day_reset vb) = lasttime vb /\
  units (day_reset vb) = units vb /\
  history (day_reset vb) = history vb /\
  history_full (day_reset vb) = history_full vb /\
  day_vec_avg (day_reset vb) = day_vec_avg vb /\
  day_vec_dir (day_reset vb) = day_vec_dir vb.
Proof. repeat split. Qed.

End VectorFacts.

(** ** The bearing on doubles *)

Module FloatFacts.
Import PrimFloat FloatBearing.

(** C8. On doubles the normalisation of [day_vec_dir] leaves [0, 360): for
    the component sums of one sample of speed 1.0 at 360 degrees, and an
    [atan2] that returns there the double next above pi/2, [_dir] is
    -1.4210854715202004e-14, which is negative, and [_dir + 360.0] rounds
    to 360.0. *)
Theorem day_vec_dir_reaches_360 (atan2 : float -> float -> float) :
  atan2 north_ysum north_xsum = 0x1.921fb54442d19p+0%float ->
  day_vec_dir atan2 north_ysum north_xsum = 360%float.
Proof.
  intros H. unfold day_vec_dir, degrees. rewrite H. vm_compute. reflexivity.
Qed.

Lemma day_vec_dir_reaches_360_witness :
  day_vec_dir atan2_north north_ysum north_xsum = 360%float.
Proof.
  apply (day_vec_dir_reaches_360 atan2_north). reflexivity.
Defined.

End FloatFacts.

(** ** Buffer *)

Module BufferFacts.
Import Buffer.

(** C2. [nineam_reset()] raises [NameError] on every buffer: the name [SUM]
    that its loop iterates is bound nowhere, so no [nineam_sum] is zeroed,
    also when ['rain'] and ['wind'] are present. *)
Theorem nineam_reset_raises (b : t) : nineam_reset b = Raise NameError.
Proof. reflexivity. Qed.

Lemma scalar_add_value_total (sb : ScalarBuffer.t) (val : option R) (now : Z)
    (hilo hist sum : bool) :
  ScalarBuffer.has_attrs hist sum sb ->
  exists sb',
    ScalarBuffer.add_value sb val now hilo hist sum = Ok sb' /\
    ScalarBuffer.has_attrs hist sum sb'.
Proof.
  intros Hattrs. destruct val as [v|]; [|exists sb; split; auto].
  destruct Hattrs as [Hh Hs]. unfold ScalarBuffer.add_value.
  set (b3 := if hilo then _ else _).
  assert (E : ScalarBuffer.history b3 = ScalarBuffer.history sb /\
              ScalarBuffer.day_sum b3 = ScalarBuffer.day_sum sb /\
              ScalarBuffer.nineam_sum b3 = ScalarBuffer.nineam_sum sb /\
              ScalarBuffer.interval_sum b3 = ScalarBuffer.interval_sum sb).
  { subst b3. repeat case_match; simpl; auto. }
  clearbody b3. destruct E as (Eh & Ed & En & Ei).
  assert (Hstep : exists b4,
             (if hist then
                h ← getattr (ScalarBuffer.history b3);
                ScalarBuffer.trim_history
                  (ScalarBuffer.set_history (h ++ [mkObs v now]) b3) now
              else Ok b3) = Ok b4 /\
             (hist = true -> is_Some (ScalarBuffer.history b4)) /\
             ScalarBuffer.day_sum b4 = ScalarBuffer.day_sum sb /\
             ScalarBuffer.nineam_sum b4 = ScalarBuffer.nineam_sum sb /\
             ScalarBuffer.interval_sum b4 = ScalarBuffer.interval_sum sb).
  { destruct hist.
    - destruct (Hh eq_refl) as [h Hhist]. rewrite Eh, Hhist. simpl.
      rewrite ScalarFacts.trim_history_Ok. eexists. split; [reflexivity|].
      simpl. repeat split; eauto.
    - exists b3. repeat split; auto. discriminate. }
  destruct Hstep as (b4 & -> & Hh4 & Ed4 & En4 & Ei4). simpl.
  destruct sum.
  - destruct (Hs eq_refl) as ([d Hd] & [n Hn] & [i Hi]).
    rewrite Ed4, Hd. simpl. rewrite En4, Hn. simpl. rewrite Ei4, Hi. simpl.
    eexists. split; [reflexivity|].
    split; [exact Hh4 | intros _; simpl; repeat split; eauto].
  - exists b4. split; [reflexivity|]. split; [exact Hh4 | discriminate].
Qed.

Section Units.

Variable getStandardUnitType : option Z -> string -> string * string.
Variable convertStd : ValueTuple -> option Z -> ValueTuple.

Lemma packet_value_Ok (p : Packet) (name : string) (u pu : option Z) (v : option R) :
  usUnits p = Some pu ->
  obs p !! name = Some v ->
  exists val, packet_value getStandardUnitType convertStd p name u = Ok val.
Proof.
  intros Hu Hv. unfold packet_value. rewrite Hu. simpl.
  destruct (bool_decide (u = pu)).
  - rewrite Hv. simpl. eauto.
  - destruct (getStandardUnitType pu name). rewrite Hv. simpl. eauto.
Qed.

Lemma packet_ts_Ok (p : Packet) (now : Z) :
  dateTime p = Some (Some now) -> packet_ts p = Ok now.
Proof. intros H. unfold packet_ts. rewrite H. reflexivity. Qed.

(** [add_value] on a scalar observation returns and replaces that entry
    only. *)
Lemma add_value_scalar (b : t) (p : Packet) (name : string) (pu : option Z)
    (now : Z) (v : option R) (hilo hist sum : bool) :
  name <> "wind" ->
  usUnits p = Some pu ->
  dateTime p = Some (Some now) ->
  obs p !! name = Some v ->
  match items b !! name with
  | None => True
  | Some (Scalar sb) => ScalarBuffer.has_attrs hist sum sb
  | Some (Vector _) => False
  end ->
  exists sb',
    add_value getStandardUnitType convertStd b p name hilo hist sum
    = Ok (set_items (<[name := Scalar sb']> (items b)) b) /\
    ScalarBuffer.has_attrs hist sum sb'.
Proof.
  intros Hname Hu Ht Hv Hentry. unfold add_value.
  assert (Hinit : init_entry name pu hist sum
                  = Scalar (ScalarBuffer.init None pu hist sum)).
  { unfold init_entry. destruct (String.eqb_spec name "wind"); [contradiction|].
    reflexivity. }
  assert (Hready : exists b0 sb,
             match items b !! name with
             | Some _ => Ok b
             | None =>
               pu0 ← getitem (usUnits p);
               mret (set_items (<[name := init_entry name pu0 hist sum]> (items b)) b)
             end = Ok b0 /\
             items b0 !! name = Some (Scalar sb) /\
             ScalarBuffer.has_attrs hist sum sb /\
             (forall e, <[name := e]> (items b0) = <[name := e]> (items b)) /\
             primary_unit_system b0 = primary_unit_system b /\
             last_windSpeed_ts b0 = last_windSpeed_ts b /\
             windrun b0 = windrun b).
  { destruct (items b !! name) as [[sb|vb]|] eqn:E; [| contradiction |].
    - exists b, sb. split; [reflexivity|]. split; [exact E|].
      split; [exact Hentry|]. repeat split; auto.
    - rewrite Hu. cbn [getitem mbind result_bind mret result_ret]. rewrite Hinit.
      eexists. exists (ScalarBuffer.init None pu hist sum).
      split; [reflexivity|]. simpl.
      split; [apply lookup_insert_eq|].
      split; [destruct hist, sum; split; simpl; intros; try discriminate;
              repeat split; eauto|].
      split; [intros e; apply insert_insert_eq|]. auto. }
  destruct Hready as (b0 & sb & -> & Hlook & Hattrs & Hins & Hp & Hl & Hw).
  simpl. rewrite Hlook. simpl.
  destruct (packet_value_Ok p name (ScalarBuffer.units sb) pu v Hu Hv) as [val ->].
  simpl. rewrite (packet_ts_Ok p now Ht). simpl.
  destruct (scalar_add_value_total sb val now hilo hist sum Hattrs)
    as (sb' & -> & Hattrs').
  simpl. exists sb'. split; [|exact Hattrs'].
  f_equal. unfold set_items. rewrite Hins, Hp, Hl, Hw. reflexivity.
Qed.

Lemma update_windrun_spec (b : t) (p : Packet) (now : Z) (v : option R) :
  dateTime p = Some (Some now) ->
  obs p !! "windSpeed" = Some v ->
  update_windrun b p
  = Ok (set_last_windSpeed_ts (Some now)
          match last_windSpeed_ts b, v with
          | Some t0, Some x => set_windrun (windrun b + x * IZR (now - t0) / 1000)%R b
          | _, _ => b
          end).
Proof.
  intros Ht Hv. unfold update_windrun, contains. simpl.
  rewrite Hv, Ht. simpl.
  destruct (last_windSpeed_ts b) as [t0|], v as [x|]; reflexivity.
Qed.

(** [add_wind_value] for ['windSpeed'] returns on a buffer whose wind
    entries are ready, keeps them ready, records the packet's timestamp and
    adds to [windrun] the packet's own speed times the elapsed seconds over
    1000, or nothing when the speed or the previous timestamp is null. *)
Lemma add_wind_value_spec (b : t) (p : Packet) (pu : option Z) (now : Z)
    (v : option R) :
  wind_ready b ->
  usUnits p = Some pu ->
  dateTime p = Some (Some now) ->
  obs p !! "windSpeed" = Some v ->
  exists b',
    add_wind_value getStandardUnitType convertStd b p "windSpeed" true true false
    = Ok b' /\
    wind_ready b' /\
    last_windSpeed_ts b' = Some now /\
    windrun b'
    = match last_windSpeed_ts b, v with
      | Some t0, Some x => (windrun b + x * IZR (now - t0) / 1000)%R
      | _, _ => windrun b
      end.
Proof.
  intros [Hws Hwind] Hu Ht Hv. unfold add_wind_value.
  destruct (add_value_scalar b p "windSpeed" pu now v true true false
              ltac:(discriminate) Hu Ht Hv Hws)
    as (sb' & -> & Hsb').
  cbn [mbind result_bind].
  rewrite (update_windrun_spec _ p now v Ht Hv).
  cbn [mbind result_bind].
  set (b2 := set_last_windSpeed_ts (Some now) _).
  assert (Hitems : items b2 = <["windSpeed" := Scalar sb']> (items b)).
  { subst b2. simpl. destruct (last_windSpeed_ts b), v; reflexivity. }
  assert (Hts : last_windSpeed_ts b2 = Some now) by reflexivity.
  assert (Hrun : windrun b2
                 = match last_windSpeed_ts b, v with
                   | Some t0, Some x => (windrun b + x * IZR (now - t0) / 1000)%R
                   | _, _ => windrun b
                   end).
  { subst b2. simpl. destruct (last_windSpeed_ts b), v; reflexivity. }
  clearbody b2.
  assert (Hwind2 : items b2 !! "wind" = items b !! "wind").
  { rewrite Hitems. apply lookup_insert_ne. discriminate. }
  assert (Hready : exists b3 vb,
             match items b2 !! "wind" with
             | Some _ => Ok b2
             | None =>
               pu0 ← getitem (usUnits p);
               mret (set_items
                       (<["wind" := Vector (VectorBuffer.init None pu0 true true)]>
                          (items b2)) b2)
             end = Ok b3 /\
             items b3 !! "wind" = Some (Vector vb) /\
             VectorBuffer.has_attrs true true vb /\
             (forall e, <["wind" := e]> (items b3) = <["wind" := e]> (items b2)) /\
             primary_unit_system b3 = primary_unit_system b2 /\
             last_windSpeed_ts b3 = last_windSpeed_ts b2 /\
             windrun b3 = windrun b2).
  { rewrite Hwind2.
    destruct (items b !! "wind") as [[sb|vb]|] eqn:E; [contradiction | |].
    - exists b2, vb. split; [reflexivity|]. split; [congruence|].
      split; [exact Hwind|]. repeat split; auto.
    - rewrite Hu. cbn [getitem mbind result_bind mret result_ret].
      eexists. exists (VectorBuffer.init None pu true true).
      split; [reflexivity|]. simpl.
      split; [apply lookup_insert_eq|].
      split; [split; simpl; intros _; repeat split; eauto|].
      split; [intros e; apply insert_insert_eq|]. auto. }
  destruct Hready as (b3 & vb & -> & Hlook & Hattrs & Hins & Hp & Hl & Hw).
  cbn [mbind result_bind]. rewrite Hlook. cbn [getitem mbind result_bind].
  destruct (packet_value_Ok p "windSpeed" (entry_units (Vector vb)) pu v Hu Hv)
    as [val ->].
  cbn [mbind result_bind]. rewrite (packet_ts_Ok p now Ht).
  cbn [mbind result_bind].
  destruct (HistoryFacts.vector_add_value_total vb
              (val, mjoin (obs p !! "windDir")) now true true Hattrs)
    as (vb' & -> & Hattrs').
  cbn [mbind result_bind mret result_ret].
  eexists. split; [reflexivity|].
  split; [|split; [simpl; congruence | simpl; congruence]].
  unfold wind_ready. simpl. rewrite Hins, Hitems. split.
  - rewrite lookup_insert_ne by discriminate. rewrite lookup_insert_eq. exact Hsb'.
  - rewrite lookup_insert_eq. exact Hattrs'.
Qed.

(** A packet whose one observation is ['windSpeed'] goes through
    [add_wind_value] with the flags of the manifests. *)
Lemma add_packet_windSpeed (b : t) (p : Packet) (now : Z) (v : option R) :
  dateTime p = Some (Some now) ->
  obs p = {["windSpeed" := v]} ->
  add_packet getStandardUnitType convertStd b p
  = add_wind_value getStandardUnitType convertStd b p "windSpeed" true true false.
Proof.
  intros Ht Hobs. unfold add_packet. rewrite Ht, Hobs. cbn [getitem mbind result_bind].
  rewrite map_to_list_singleton. reflexivity.
Qed.

End Units.

(** C3, as the code has it. Adding a packet with a non-null ['windSpeed']
    [v] at [now] to a buffer whose wind entries are ready returns and
    records [now] as the last windSpeed timestamp; when a previous
    timestamp [t0] is recorded, [windrun] grows by [v * (now - t0) / 1000],
    [v] being the speed of the packet being added, and when none is
    recorded [windrun] stays as it is. *)
Theorem windrun_accrual
    (gs : option Z -> string -> string * string)
    (cs : ValueTuple -> option Z -> ValueTuple)
    (b : t) (p : Packet) (pu : option Z) (now : Z) (v : R) :
  wind_ready b ->
  usUnits p = Some pu ->
  dateTime p = Some (Some now) ->
  obs p !! "windSpeed" = Some (Some v) ->
  exists b',
    add_wind_value gs cs b p "windSpeed" true true false = Ok b' /\
    last_windSpeed_ts b' = Some now /\
    windrun b'
    = match last_windSpeed_ts b with
      | Some t0 => (windrun b + v * IZR (now - t0) / 1000)%R
      | None => windrun b
      end.
Proof.
  intros Hready Hu Ht Hv.
  destruct (add_wind_value_spec gs cs b p pu now (Some v) Hready Hu Ht Hv)
    as (b' & Hadd & _ & Hts & Hrun).
  exists b'. split; [exact Hadd|]. split; [exact Hts|].
  rewrite Hrun. destruct (last_windSpeed_ts b); reflexivity.
Qed.

Lemma windrun_accrual_witness :
  exists b',
    add_wind_value metric_speed_unit convertStd_same_system
      (mk ∅ (Some 16) (Some 0) 0%R)
      (mkPacket (Some (Some 3600)) (Some (Some 16)) {["windSpeed" := Some 20%R]})
      "windSpeed" true true false = Ok b' /\
    last_windSpeed_ts b' = Some 3600 /\
    windrun b' = (0 + 20 * IZR (3600 - 0) / 1000)%R.
Proof.
  apply (windrun_accrual metric_speed_unit convertStd_same_system
           (mk ∅ (Some 16) (Some 0) 0%R)
           (mkPacket (Some (Some 3600)) (Some (Some 16)) {["windSpeed" := Some 20%R]})
           (Some 16) 3600 20%R).
  - split; exact I.
  - reflexivity.
  - reflexivity.
  - apply lookup_singleton_eq.
Defined.

(** C3, the scenario of the claim: ['windSpeed'] 10 km/h at 0 and then 20
    km/h at 3600, both in the METRIC system (16), added to an empty buffer.
    The first packet finds no previous timestamp and leaves [windrun] at 0;
    the second adds 72, not 10. *)
Lemma windrun_accrual_counterexample :
  exists b1 b2,
    add_packet metric_speed_unit convertStd_same_system
      (mk ∅ (Some 16) None 0%R)
      (mkPacket (Some (Some 0)) (Some (Some 16)) {["windSpeed" := Some 10%R]})
    = Ok b1 /\
    add_packet metric_speed_unit convertStd_same_system b1
      (mkPacket (Some (Some 3600)) (Some (Some 16)) {["windSpeed" := Some 20%R]})
    = Ok b2 /\
    last_windSpeed_ts b1 = Some 0 /\
    windrun b1 = 0%R /\
    windrun b2 = (windrun b1 + 72)%R /\
    windrun b2 <> (windrun b1 + 10)%R.
Proof.
  set (b0 := mk ∅ (Some 16) None 0%R).
  set (p1 := mkPacket (Some (Some 0)) (Some (Some 16)) {["windSpeed" := Some 10%R]}).
  set (p2 := mkPacket (Some (Some 3600)) (Some (Some 16)) {["windSpeed" := Some 20%R]}).
  assert (Hready0 : wind_ready b0) by (split; exact I).
  destruct (add_wind_value_spec metric_speed_unit convertStd_same_system
              b0 p1 (Some 16) 0 (Some 10%R) Hready0 eq_refl eq_refl
              (lookup_singleton_eq _ _))
    as (b1 & Hadd1 & Hready1 & Hts1 & Hrun1).
  destruct (add_wind_value_spec metric_speed_unit convertStd_same_system
              b1 p2 (Some 16) 3600 (Some 20%R) Hready1 eq_refl eq_refl
              (lookup_singleton_eq _ _))
    as (b2 & Hadd2 & _ & _ & Hrun2).
  exists b1, b2.
  rewrite (add_packet_windSpeed _ _ b0 p1 0 (Some 10%R) eq_refl eq_refl).
  rewrite (add_packet_windSpeed _ _ b1 p2 3600 (Some 20%R) eq_refl eq_refl).
  rewrite Hts1 in Hrun2. cbn [last_windSpeed_ts windrun b0] in Hrun1.
  change (3600 - 0) with 3600 in Hrun2.
  repeat split; auto; rewrite Hrun2, Hrun1; lra.
Qed.

End BufferFacts.

(** ** CachedPacket *)

Module CacheFacts.
Import CachedPacket.

(** The loop of [update] read back one key at a time. *)
Lemma store_lookup (now : Z) (fields : gmap string (option R))
    (c : gmap string cached) (k : string) :
  store now fields c !! k
  = match fields !! k with
    | Some (Some x) => Some (mkCached (Some x) (Some now))
    | _ => c !! k
    end.
Proof.
  unfold store. revert k.
  apply (map_fold_weak_ind
           (fun r (m : gmap string (option R)) =>
              forall k, r !! k = match m !! k with
                                 | Some (Some x) => Some (mkCached (Some x) (Some now))
                                 | _ => c !! k
                                 end)).
  - intros k. rewrite lookup_empty. reflexivity.
  - intros i x m r Hi IH k.
    destruct (decide (i = k)) as [->|Hne].
    + rewrite lookup_insert_eq. destruct x as [x|].
      * apply lookup_insert_eq.
      * rewrite IH, Hi. reflexivity.
    + rewrite (lookup_insert_ne m) by exact Hne. destruct x as [x|].
      * rewrite lookup_insert_ne by exact Hne. apply IH.
      * apply IH.
Qed.

Lemma init_keys (clock : Z) (rec : Packet) (k : string) :
  is_Some (cache (init clock rec) !! k) <-> k ∈ OBS.
Proof.
  unfold init. cbn [cache].
  set (f := fun (c : gmap string cached) (_obs : string) => _).
  assert (H : forall l acc, is_Some (fold_left f l acc !! k)
                            <-> k ∈ l \/ is_Some (acc !! k)).
  { induction l as [|a l IH]; intros acc; simpl.
    - split; [auto | intros [H|H]; [inversion H | exact H]].
    - rewrite IH, elem_of_cons. subst f. cbn beta.
      destruct (decide (a = k)) as [->|Hne].
      + split; [auto|]. intros _. right.
        destruct (contains rec k && contains rec "usUnits");
          rewrite lookup_insert_eq; eauto.
      + assert (E : forall e, <[a := e]> acc !! k = acc !! k)
          by (intros e; apply lookup_insert_ne; exact Hne).
        destruct (contains rec a && contains rec "usUnits"); rewrite E;
          split; intros [H|H]; auto; destruct H as [H|H]; auto; congruence. }
  rewrite H, lookup_empty. split; [intros [Hk|Hk]; [exact Hk | inversion Hk; discriminate] | auto].
Qed.

Section Units.

Variable to_std_system : Packet -> Z -> Packet.

(** The packet that the loop of [update] runs over. *)
Lemma update_Ok (c : t) (p : Packet) (now : Z) (pu : option Z) :
  usUnits p = Some pu ->
  update to_std_system c p now
  = Ok {| cache :=
            store now
              (obs (match unit_system c with
                    | Some u => if bool_decide (Some u = pu) then p
                                else to_std_system p u
                    | None => p
                    end))
              (cache c);
          unit_system := match unit_system c with
                         | Some u => Some u
                         | None => pu
                         end |}.
Proof.
  intros Hu. unfold update. rewrite Hu. cbn [getitem mbind result_bind].
  destruct (unit_system c) as [u|]; [|reflexivity].
  destruct (bool_decide (Some u = pu)); reflexivity.
Qed.

(** C5, as the code has it. For a packet in the cache's unit system (or a
    cache that has no unit system yet), [update] returns; a non-null field
    of the packet overwrites the cached value and timestamp of its key, or
    creates the entry when the key was not cached, whether or not the key
    is in [OBS]; a null field and a key absent from the packet leave the
    entry of that key as it was. So the keys of the cache afterwards are
    its keys before together with the non-null fields of the packet. *)
Theorem update_effect (c : t) (p : Packet) (now : Z) (pu : option Z) :
  usUnits p = Some pu ->
  unit_system c = None \/ unit_system c = pu ->
  exists c',
    update to_std_system c p now = Ok c' /\
    (forall k x, obs p !! k = Some (Some x) ->
                 cache c' !! k = Some (mkCached (Some x) (Some now))) /\
    (forall k, obs p !! k = Some None -> cache c' !! k = cache c !! k) /\
    (forall k, obs p !! k = None -> cache c' !! k = cache c !! k) /\
    (forall k, is_Some (cache c' !! k)
               <-> is_Some (cache c !! k) \/ exists x, obs p !! k = Some (Some x)).
Proof.
  intros Hu Hsys. rewrite (update_Ok c p now pu Hu).
  eexists. split; [reflexivity|]. cbn [cache].
  assert (E : match unit_system c with
              | Some u => if bool_decide (Some u = pu) then p else to_std_system p u
              | None => p
              end = p).
  { destruct Hsys as [-> | ->]; [reflexivity|].
    destruct pu as [u|]; [|reflexivity].
    rewrite bool_decide_eq_true_2; reflexivity. }
  rewrite E. repeat split.
  - intros k x Hk. rewrite store_lookup, Hk. reflexivity.
  - intros k Hk. rewrite store_lookup, Hk. reflexivity.
  - intros k Hk. rewrite store_lookup, Hk. reflexivity.
  - rewrite store_lookup. destruct (obs p !! k) as [[x|]|]; eauto.
  - rewrite store_lookup. intros [H | [x ->]]; [|eauto].
    destruct (obs p !! k) as [[x|]|]; eauto.
Qed.

End Units.

Lemma update_effect_witness :
  exists c',
    update to_std_system_same
      (init 0 (mkPacket (Some (Some 0)) (Some (Some 16)) ∅))
      (mkPacket (Some (Some 100)) (Some (Some 16))
         {["outTemp" := Some 15%R]})
      100
    = Ok c' /\
    cache c' !! "outTemp" = Some (mkCached (Some 15%R) (Some 100)).
Proof.
  destruct (update_effect to_std_system_same
              (init 0 (mkPacket (Some (Some 0)) (Some (Some 16)) ∅))
              (mkPacket (Some (Some 100)) (Some (Some 16))
                 {["outTemp" := Some 15%R]})
              100 (Some 16) eq_refl (or_intror eq_refl))
    as (c' & Hupd & Hset & _).
  exists c'. split; [exact Hupd|].
  apply Hset. apply lookup_singleton_eq.
Defined.

(** C5, the claim as it is stated: a cache primed by [__init__] holds the
    keys of [OBS] and nothing else; a packet in the cache's unit system
    that carries ['extraTemp1'], which is not in [OBS], makes [update] add
    that key, so the cache has changed and its keys are no longer [OBS]. *)
Lemma update_untracked_counterexample :
  ("extraTemp1" ∉ OBS) /\
  (forall k,
      is_Some (cache (init 0 (mkPacket (Some (Some 0)) (Some (Some 16)) ∅)) !! k)
      <-> k ∈ OBS) /\
  exists c',
    update to_std_system_same
      (init 0 (mkPacket (Some (Some 0)) (Some (Some 16)) ∅))
      (mkPacket (Some (Some 100)) (Some (Some 16))
         {["extraTemp1" := Some 5%R]})
      100
    = Ok c' /\
    cache (init 0 (mkPacket (Some (Some 0)) (Some (Some 16)) ∅)) !! "extraTemp1"
    = None /\
    cache c' !! "extraTemp1" = Some (mkCached (Some 5%R) (Some 100)) /\
    ~ (forall k, is_Some (cache c' !! k) <-> k ∈ OBS).
Proof.
  assert (Hnot : "extraTemp1" ∉ OBS).
  { intros H. apply (bool_decide_eq_true_2 _) in H. vm_compute in H. discriminate H. }
  split; [exact Hnot|]. split; [apply init_keys|].
  set (c0 := init 0 (mkPacket (Some (Some 0)) (Some (Some 16)) ∅)).
  set (p := mkPacket (Some (Some 100)) (Some (Some 16)) {["extraTemp1" := Some 5%R]}).
  assert (Hnone : cache c0 !! "extraTemp1" = None).
  { destruct (cache c0 !! "extraTemp1") eqn:E; [|reflexivity].
    exfalso. apply Hnot. apply (init_keys 0 (mkPacket (Some (Some 0)) (Some (Some 16)) ∅)).
    fold c0. rewrite E. eauto. }
  rewrite (update_Ok to_std_system_same c0 p 100 (Some 16) eq_refl).
  eexists. split; [reflexivity|]. cbn [cache].
  assert (Hnew : store 100
                   (obs (match unit_system c0 with
                         | Some u => if bool_decide (Some u = Some 16) then p
                                     else to_std_system_same p u
                         | None => p
                         end)) (cache c0) !! "extraTemp1"
                 = Some (mkCached (Some 5%R) (Some 100))).
  { rewrite store_lookup.
    replace (obs _ !! "extraTemp1") with (Some (Some 5%R)); [reflexivity|].
    symmetry. destruct (unit_system c0); [destruct (bool_decide _)|];
      apply lookup_singleton_eq. }
  split; [exact Hnone|]. split; [exact Hnew|].
  intros Hkeys. apply Hnot. apply Hkeys. rewrite Hnew. eauto.
Qed.

Section Freshness.

Variable to_std_system : Packet -> Z -> Packet.

(** A unit conversion gives no value to a field that had none. *)
Hypothesis to_std_system_null :
  forall p u k, mjoin (obs p !! k) = None -> mjoin (obs (to_std_system p u) !! k) = None.

Lemma update_keeps (c : t) (p : Packet) (now : Z) (name : string) :
  is_Some (usUnits p) ->
  mjoin (obs p !! name) = None ->
  exists c',
    update to_std_system c p now = Ok c' /\ cache c' !! name = cache c !! name.
Proof.
  intros [pu Hu] Hnull. rewrite (update_Ok to_std_system c p now pu Hu).
  eexists. split; [reflexivity|]. cbn [cache]. rewrite store_lookup.
  set (p' := match unit_system c with Some u => _ | None => p end).
  assert (Hnull' : mjoin (obs p' !! name) = None).
  { subst p'. destruct (unit_system c) as [u|]; [|exact Hnull].
    destruct (bool_decide (Some u = pu)); [exact Hnull|].
    apply to_std_system_null, Hnull. }
  destruct (obs p' !! name) as [[x|]|]; [discriminate Hnull' | reflexivity | reflexivity].
Qed.

Lemma updates_keep (ps : list (Packet * Z)) (c : t) (name : string) :
  Forall (fun q => is_Some (usUnits q.1) /\ mjoin (obs q.1 !! name) = None) ps ->
  exists c',
    updates to_std_system c ps = Ok c' /\ cache c' !! name = cache c !! name.
Proof.
  intros Hps. revert c. induction Hps as [|[p now] ps [Hu Hnull] _ IH]; intros c.
  - exists c. split; reflexivity.
  - destruct (update_keeps c p now name Hu Hnull) as (c1 & Hupd & Hsame).
    destruct (IH c1) as (c' & Hrun & Hsame').
    exists c'. split; [|congruence].
    unfold updates in *. simpl. rewrite Hupd. exact Hrun.
Qed.

(** C4. Let the cache hold the value [v] with timestamp [t0] for a field,
    and let any number of updates follow whose packets omit the field or
    carry it as null. Then [get_value] returns [v] if and only if
    [now - t0 <= max_age], and null otherwise. *)
Theorem get_value_freshness (c : t) (name : string) (v : option R) (t0 : Z)
    (ps : list (Packet * Z)) (now max_age : Z) :
  cache c !! name = Some (mkCached v (Some t0)) ->
  Forall (fun q => is_Some (usUnits q.1) /\ mjoin (obs q.1 !! name) = None) ps ->
  exists c',
    updates to_std_system c ps = Ok c' /\
    get_value c' name now max_age
    = Ok (if bool_decide (now - t0 <= max_age) then v else None).
Proof.
  intros Hc Hps.
  destruct (updates_keep ps c name Hps) as (c' & Hrun & Hsame).
  exists c'. split; [exact Hrun|].
  unfold get_value. rewrite Hsame, Hc. cbn [c_ts c_value].
  destruct (bool_decide (now - t0 <= max_age)); reflexivity.
Qed.

End Freshness.

Lemma get_value_freshness_witness :
  exists c',
    updates to_std_system_same
      (mk {["outTemp" := mkCached (Some 15%R) (Some 1000)]} (Some 16))
      [(mkPacket (Some (Some 1010)) (Some (Some 16)) {["barometer" := Some 1013%R]},
        1010);
       (mkPacket (Some (Some 1020)) (Some (Some 16)) {["outTemp" := None]}, 1020)]
    = Ok c' /\
    get_value c' "outTemp" 1500 600
    = Ok (if bool_decide (1500 - 1000 <= 600) then Some 15%R else None).
Proof.
  apply (get_value_freshness to_std_system_same (fun p u k H => H)
           (mk {["outTemp" := mkCached (Some 15%R) (Some 1000)]} (Some 16))
           "outTemp" (Some 15%R) 1000).
  - apply lookup_singleton_eq.
  - repeat constructor; simpl; eauto.
Defined.

End CacheFacts.

(** ** calc_trend *)

Module TrendFacts.

(** C6. A record that is found and holds the observation with a null value
    passes the three guards of [calc_trend]; the converted historical value
    is null and the subtraction raises [TypeError] instead of returning
    null or a difference. *)
Theorem calc_trend_null_history :
  calc_trend
    (fun then_ts grace =>
       Some (mkPacket (Some (Some then_ts)) (Some (Some 16)) {["outTemp" := None]}))
    as_value_tuple_degree_C convert_same_unit
    "outTemp" (mkVT (Some 20%R) "degree_C" "group_temperature") "degree_C"
    1000 300
  = Raise TypeError.
Proof. reflexivity. Qed.

End TrendFacts.

(** * Further properties *)

(** ** ScalarBuffer: last value, sums and the history flag *)

Module ScalarMore.
Import ScalarBuffer.

Lemma py_sum_snoc (l : list R) (x : R) : py_sum (l ++ [x]) = (py_sum l + x)%R.
Proof. unfold py_sum. rewrite fold_left_app. reflexivity. Qed.

Lemma fold_min_le (l : list Z) (a : Z) :
  fold_left Z.min l a <= a /\ Forall (fun x => fold_left Z.min l a <= x) l /\
  (fold_left Z.min l a = a \/ fold_left Z.min l a ∈ l).
Proof.
  revert a. induction l as [|x l IH]; intros a; simpl.
  - split; [lia|]. split; [constructor | left; reflexivity].
  - destruct (IH (Z.min a x)) as (H1 & H2 & H3).
    split; [lia|]. split.
    + constructor; [lia | exact H2].
    + destruct H3 as [H3|H3].
      * destruct (Z.min_spec a x) as [[_ E]|[_ E]].
        -- left. rewrite H3. exact E.
        -- right. rewrite H3, E. left.
      * right. right. exact H3.
Qed.

(** [min(l) <= c] says that some element of [l] is at most [c]. *)
Lemma py_min_le (l : list Z) (m c : Z) :
  py_min l = Ok m -> (m <=? c) = true <-> Exists (fun x => x <= c) l.
Proof.
  destruct l as [|a l]; [discriminate|]. simpl. intros [= <-].
  destruct (fold_min_le l a) as (H1 & H2 & H3).
  rewrite Z.leb_le. split.
  - intros Hle. apply Exists_exists.
    destruct H3 as [H3|H3].
    + exists a. split; [left | lia].
    + exists (fold_left Z.min l a). split; [right; exact H3 | exact Hle].
  - intros Hex. apply Exists_exists in Hex. destruct Hex as (x & Hx & Hxc).
    apply elem_of_cons in Hx. destruct Hx as [-> | Hx]; [lia|].
    rewrite Forall_forall in H2. specialize (H2 x Hx). lia.
Qed.

(** One [add_value] call of a non-null value, field by field. *)
Lemma add_value_step (sb : t) (v : R) (now : Z) (hilo hist sum : bool) :
  has_attrs hist sum sb ->
  exists sb',
    add_value sb (Some v) now hilo hist sum = Ok sb' /\
    has_attrs hist sum sb' /\
    units sb' = units sb /\
    (last sb', lasttime sb')
    = (if match lasttime sb with None => true | Some lt => lt <=? now end
       then (Some v, Some now) else (last sb, lasttime sb)) /\
    (day_sum sb', nineam_sum sb', interval_sum sb')
    = (if sum
       then ((fun d => d + v)%R <$> day_sum sb,
             (fun d => d + v)%R <$> nineam_sum sb,
             (fun d => d + v)%R <$> interval_sum sb)
       else (day_sum sb, nineam_sum sb, interval_sum sb)) /\
    (history sb', history_full sb')
    = (if hist
       then ((fun h => filter (fun s => now - MAX_AGE < ts s) (h ++ [mkObs v now]))
               <$> history sb,
             (fun h => match py_min (map ts (h ++ [mkObs v now])) with
                       | Ok m => m <=? now - MAX_AGE
                       | Raise _ => false
                       end) <$> history sb)
       else (history sb, history_full sb)).
Proof.
  intros [Hh Hs]. unfold add_value.
  set (b0 := if match lasttime sb with None => true | Some lt => lt <=? now end
             then set_last (Some v) (Some now) sb else sb).
  set (b3 := if hilo then _ else _).
  assert (E : history b3 = history sb /\ history_full b3 = history_full sb /\
              day_sum b3 = day_sum sb /\
              nineam_sum b3 = nineam_sum sb /\ interval_sum b3 = interval_sum sb /\
              units b3 = units sb /\
              (last b3, lasttime b3)
              = (if match lasttime sb with None => true | Some lt => lt <=? now end
                 then (Some v, Some now) else (last sb, lasttime sb))).
  { subst b3 b0. repeat case_match; simpl; repeat split; auto; congruence. }
  clearbody b3. clear b0. destruct E as (Eh & Ef & Ed & En & Ei & Eu & El).
  rewrite <- El. clear El.
  assert (Hstep : exists b4,
             (if hist then
                h ← getattr (history b3);
                trim_history (set_history (h ++ [mkObs v now]) b3) now
              else Ok b3) = Ok b4 /\
             (hist = true -> is_Some (history b4)) /\
             day_sum b4 = day_sum sb /\
             nineam_sum b4 = nineam_sum sb /\
             interval_sum b4 = interval_sum sb /\
             units b4 = units sb /\ last b4 = last b3 /\ lasttime b4 = lasttime b3 /\
             (history b4, history_full b4)
             = (if hist
                then ((fun h => filter (fun s => now - MAX_AGE < ts s)
                                  (h ++ [mkObs v now])) <$> history sb,
                      (fun h => match py_min (map ts (h ++ [mkObs v now])) with
                                | Ok m => m <=? now - MAX_AGE
                                | Raise _ => false
                                end) <$> history sb)
                else (history sb, history_full sb))).
  { destruct hist.
    - destruct (Hh eq_refl) as [h Hhist]. rewrite Eh, Hhist. simpl.
      rewrite ScalarFacts.trim_history_Ok. eexists. split; [reflexivity|].
      simpl. repeat split; eauto.
    - exists b3. rewrite Eh, Ef. repeat split; auto; discriminate. }
  destruct Hstep as (b4 & -> & Hh4 & Ed4 & En4 & Ei4 & Eu4 & El4 & Elt4 & Ehist).
  rewrite <- Ehist, <- El4, <- Elt4. simpl.
  destruct sum.
  - destruct (Hs eq_refl) as ([d Hd] & [n Hn] & [i Hi]).
    rewrite Ed4, Hd. simpl. rewrite En4, Hn. simpl. rewrite Ei4, Hi. simpl.
    eexists. split; [reflexivity|].
    split; [split; [exact Hh4 | intros _; simpl; repeat split; eauto]|].
    simpl. repeat split; auto.
  - exists b4. split; [reflexivity|].
    split; [split; [exact Hh4 | discriminate]|].
    rewrite Ed4, En4, Ei4. repeat split; auto.
Qed.

(** X1. With sum tracking, a feed adds the sum of the fed values to each
    of [day_sum], [nineam_sum] and [interval_sum], whatever the hilo and
    history flags and whatever the order of the timestamps. *)
Theorem add_values_sums (hilo hist : bool) (sb : t) (samples : list (R * Z))
    (d n i : R) :
  has_attrs hist true sb ->
  day_sum sb = Some d ->
  nineam_sum sb = Some n ->
  interval_sum sb = Some i ->
  exists sb',
    add_values sb samples hilo hist true = Ok sb' /\
    day_sum sb' = Some (d + py_sum (map fst samples))%R /\
    nineam_sum sb' = Some (n + py_sum (map fst samples))%R /\
    interval_sum sb' = Some (i + py_sum (map fst samples))%R.
Proof.
  intros Hattrs Hd Hn Hi.
  assert (H : exists sb',
             add_values sb samples hilo hist true = Ok sb' /\
             has_attrs hist true sb' /\
             day_sum sb' = Some (d + py_sum (map fst samples))%R /\
             nineam_sum sb' = Some (n + py_sum (map fst samples))%R /\
             interval_sum sb' = Some (i + py_sum (map fst samples))%R).
  { induction samples as [|[v now] l IH] using rev_ind.
    - exists sb. split; [reflexivity|]. split; [exact Hattrs|].
      unfold py_sum. simpl. rewrite Hd, Hn, Hi.
      repeat split; f_equal; lra.
    - destruct IH as (sb1 & Hrun & Hattrs1 & Hd1 & Hn1 & Hi1).
      rewrite ScalarFacts.add_values_snoc, Hrun. simpl.
      destruct (add_value_step sb1 v now hilo hist true Hattrs1)
        as (sb2 & Hadd & Hattrs2 & _ & _ & Hsums & _).
      exists sb2. split; [exact Hadd|]. split; [exact Hattrs2|].
      rewrite Hd1, Hn1, Hi1 in Hsums. simpl in Hsums.
      injection Hsums as E1 E2 E3.
      rewrite map_app. change (map fst [(v, now)]) with [v].
      rewrite py_sum_snoc, E1, E2, E3. repeat split; f_equal; lra. }
  destruct H as (sb' & Hrun & _ & Hsums). exists sb'. split; [exact Hrun | exact Hsums].
Qed.

Lemma add_values_sums_witness :
  exists sb',
    add_values (init None (Some 16) false true)
      [(1%R, 10); (2%R, 5); (4%R, 20)] true false true = Ok sb' /\
    day_sum sb' = Some (0 + py_sum (map fst [(1%R, 10); (2%R, 5); (4%R, 20)]))%R /\
    nineam_sum sb' = Some (0 + py_sum (map fst [(1%R, 10); (2%R, 5); (4%R, 20)]))%R /\
    interval_sum sb'
    = Some (0 + py_sum (map fst [(1%R, 10); (2%R, 5); (4%R, 20)]))%R.
Proof.
  apply (add_values_sums true false (init None (Some 16) false true)).
  - split; [discriminate | intros _; simpl; repeat split; eauto].
  - reflexivity.
  - reflexivity.
  - reflexivity.
Defined.

(** X2. After a non-empty feed into a buffer that has seen no value yet,
    [lasttime] is the largest timestamp of the feed and [last] is the value
    of a sample that carries it: a sample that arrives with an older
    timestamp never becomes the last value. *)
Theorem add_values_last (hilo hist sum : bool) (sb : t) (samples : list (R * Z)) :
  has_attrs hist sum sb ->
  lasttime sb = None ->
  samples <> [] ->
  exists sb' v m,
    add_values sb samples hilo hist sum = Ok sb' /\
    last sb' = Some v /\ lasttime sb' = Some m /\
    (v, m) ∈ samples /\
    Forall (fun s => s.2 <= m) samples.
Proof.
  intros Hattrs Hnone Hne.
  assert (H : exists sb',
             add_values sb samples hilo hist sum = Ok sb' /\
             has_attrs hist sum sb' /\
             ((samples = [] /\ lasttime sb' = None) \/
              exists v m, last sb' = Some v /\ lasttime sb' = Some m /\
                          (v, m) ∈ samples /\ Forall (fun s => s.2 <= m) samples)).
  { clear Hne. induction samples as [|[v now] l IH] using rev_ind.
    - exists sb. split; [reflexivity|]. split; [exact Hattrs|]. left. auto.
    - destruct IH as (sb1 & Hrun & Hattrs1 & Hinv).
      rewrite ScalarFacts.add_values_snoc, Hrun. simpl.
      destruct (add_value_step sb1 v now hilo hist sum Hattrs1)
        as (sb2 & Hadd & Hattrs2 & _ & Hlast & _).
      exists sb2. split; [exact Hadd|]. split; [exact Hattrs2|]. right.
      destruct Hinv as [(-> & Hlt) | (v0 & m & Hl & Hlt & Hin & Hall)].
      + rewrite Hlt in Hlast. injection Hlast as E1 E2.
        exists v, now. repeat split; auto.
        * apply list_elem_of_singleton. reflexivity.
        * constructor; [simpl; lia | constructor].
      + rewrite Hlt, Hl in Hlast. destruct (m <=? now) eqn:Ecmp.
        * apply Z.leb_le in Ecmp. injection Hlast as E1 E2.
          exists v, now. repeat split; auto.
          -- apply elem_of_app. right. apply list_elem_of_singleton. reflexivity.
          -- apply Forall_app. split.
             ++ eapply Forall_impl; [exact Hall|]. simpl. intros s Hs. lia.
             ++ constructor; [simpl; lia | constructor].
        * apply Z.leb_gt in Ecmp. injection Hlast as E1 E2.
          exists v0, m. repeat split; auto.
          -- apply elem_of_app. left. exact Hin.
          -- apply Forall_app. split; [exact Hall|].
             constructor; [simpl; lia | constructor]. }
  destruct H as (sb' & Hrun & _ & [(E & _) | (v & m & H1 & H2 & H3 & H4)]);
    [contradiction|].
  exists sb', v, m. repeat split; auto.
Qed.

Lemma add_values_last_witness :
  exists sb' v m,
    add_values (init None (Some 16) false false)
      [(15%R, 2000); (5%R, 3000); (12%R, 2500)] true false false = Ok sb' /\
    last sb' = Some v /\ lasttime sb' = Some m /\
    (v, m) ∈ [(15%R, 2000); (5%R, 3000); (12%R, 2500)] /\
    Forall (fun s => s.2 <= m) [(15%R, 2000); (5%R, 3000); (12%R, 2500)].
Proof.
  apply (add_values_last true false false (init None (Some 16) false false)).
  - split; discriminate.
  - reflexivity.
  - discriminate.
Defined.

(** X3. An [add_value] with history tracking keeps the new entry as the
    last entry of the history, keeps of the older entries exactly those
    younger than [MAX_AGE], and sets [history_full] to true exactly when it
    drops one, that is when some older entry is [MAX_AGE] old or more. *)
Theorem add_value_history_full (sb : t) (h : list (ObsTuple R)) (v : R) (now : Z)
    (hilo sum : bool) :
  has_attrs true sum sb ->
  history sb = Some h ->
  exists sb',
    add_value sb (Some v) now hilo true sum = Ok sb' /\
    history sb'
    = Some (filter (fun s => now - ts s < MAX_AGE) h ++ [mkObs v now]) /\
    ((history_full sb' = Some true /\ Exists (fun s => MAX_AGE <= now - ts s) h) \/
     (history_full sb' = Some false /\ Forall (fun s => now - ts s < MAX_AGE) h)).
Proof.
  intros Hattrs Hh.
  destruct (add_value_step sb v now hilo true sum Hattrs)
    as (sb' & Hadd & _ & _ & _ & _ & Hhist).
  rewrite Hh in Hhist. simpl in Hhist. injection Hhist as E1 E2.
  exists sb'. split; [exact Hadd|]. split.
  - rewrite E1. f_equal. rewrite filter_app.
    rewrite (filter_cons_True _ (mkObs v now)) by (unfold MAX_AGE; simpl; lia).
    rewrite filter_nil. f_equal.
    apply list_filter_iff. intros x. lia.
  - rewrite E2.
    destruct (py_min_snoc (map ts h) now) as [m Hm].
    rewrite map_app. simpl. rewrite Hm.
    pose proof (py_min_le _ m (now - MAX_AGE) Hm) as Hle.
    destruct (m <=? now - MAX_AGE).
    + left. split; [reflexivity|].
      destruct Hle as [Hle _]. specialize (Hle eq_refl).
      apply Exists_exists in Hle. destruct Hle as (x & Hx & Hxc).
      apply elem_of_app in Hx. destruct Hx as [Hx|Hx].
      * apply list_elem_of_fmap in Hx. destruct Hx as (e & -> & He).
        apply Exists_exists. exists e. split; [exact He | lia].
      * apply list_elem_of_singleton in Hx. subst x. unfold MAX_AGE in Hxc. lia.
    + right. split; [reflexivity|].
      apply Forall_forall. intros e He.
      destruct (Z_lt_dec (now - ts e) MAX_AGE) as [Hlt|Hge]; [exact Hlt|].
      exfalso. destruct Hle as [_ Hle].
      assert (Hex : Exists (fun x => x <= now - MAX_AGE) (map ts h ++ [now])).
      { apply Exists_exists. exists (ts e). split; [|lia].
        apply elem_of_app. left. apply list_elem_of_fmap. exists e. auto. }
      specialize (Hle Hex). discriminate Hle.
Qed.

Lemma add_value_history_full_witness :
  exists sb',
    add_value (set_history [mkObs 5%R 100; mkObs 3%R 900] (init None (Some 16) true false))
      (Some 7%R) 1000 true true false = Ok sb' /\
    history sb'
    = Some (filter (fun s => 1000 - ts s < MAX_AGE) [mkObs 5%R 100; mkObs 3%R 900]
            ++ [mkObs 7%R 1000]) /\
    ((history_full sb' = Some true /\
      Exists (fun s => MAX_AGE <= 1000 - ts s) [mkObs 5%R 100; mkObs 3%R 900]) \/
     (history_full sb' = Some false /\
      Forall (fun s => 1000 - ts s < MAX_AGE) [mkObs 5%R 100; mkObs 3%R 900])).
Proof.
  apply (add_value_history_full
           (set_history [mkObs 5%R 100; mkObs 3%R 900] (init None (Some 16) true false))
           [mkObs 5%R 100; mkObs 3%R 900] 7%R 1000 true false).
  - split; [intros _; simpl; eauto | discriminate].
  - reflexivity.
Defined.

End ScalarMore.

(** ** The history statistics of both buffers *)

Module HistoryMore.

Lemma window_nonempty {A} (born : Z) (h : list (ObsTuple A)) :
  (0 <? length (filter (fun a => (born <= ts a)%Z) h))%nat
  = bool_decide (Exists (fun a => born <= ts a) h).
Proof.
  induction h as [|e h IH].
  - reflexivity.
  - destruct (decide (born <= ts e)) as [He|He].
    + rewrite filter_cons_True by exact He. simpl.
      symmetry. apply bool_decide_eq_true_2. left. exact He.
    + rewrite filter_cons_False by exact He. rewrite IH.
      apply bool_decide_ext. split; [intros H; right; exact H|].
      intros H. apply Exists_cons in H. destruct H as [H|H]; [contradiction | exact H].
Qed.

(** X4. [history_max] of either buffer never finds a maximum: on a window
    without entries it returns null, and on any other window it raises
    [NameError], the name [itemgetter] being unbound in the module. *)
Theorem history_max_unbound_key (sb : ScalarBuffer.t) (vb : VectorBuffer.t)
    (hs : list (ObsTuple R)) (hv : list (ObsTuple VectorBuffer.vec)) (now age : Z) :
  ScalarBuffer.history sb = Some hs ->
  VectorBuffer.history vb = Some hv ->
  ScalarBuffer.history_max sb now age
  = (if bool_decide (Exists (fun a => now - age <= ts a) hs)
     then Raise NameError else Ok None) /\
  VectorBuffer.history_max vb now age
  = (if bool_decide (Exists (fun a => now - age <= ts a) hv)
     then Raise NameError else Ok None).
Proof.
  intros Hs Hv. split.
  - unfold ScalarBuffer.history_max. rewrite Hs.
    cbn [getattr mbind result_bind]. rewrite window_nonempty.
    destruct (bool_decide _); reflexivity.
  - unfold VectorBuffer.history_max. rewrite Hv.
    cbn [getattr mbind result_bind]. rewrite window_nonempty.
    destruct (bool_decide _); reflexivity.
Qed.

Lemma history_max_unbound_key_witness :
  ScalarBuffer.history_max
    (ScalarBuffer.set_history [mkObs 5%R 100] (ScalarBuffer.init None None true false))
    1000 600
  = (if bool_decide (Exists (fun a => 1000 - 600 <= ts a) [mkObs 5%R 100])
     then Raise NameError else Ok None) /\
  VectorBuffer.history_max
    (VectorBuffer.set_history [mkObs (5%R, 1%R, 0%R) 900]
       (VectorBuffer.init None None true false))
    1000 600
  = (if bool_decide (Exists (fun a => 1000 - 600 <= ts a) [mkObs (5%R, 1%R, 0%R) 900])
     then Raise NameError else Ok None).
Proof.
  apply (history_max_unbound_key
           (ScalarBuffer.set_history [mkObs 5%R 100]
              (ScalarBuffer.init None None true false))
           (VectorBuffer.set_history [mkObs (5%R, 1%R, 0%R) 900]
              (VectorBuffer.init None None true false))).
  - reflexivity.
  - reflexivity.
Defined.

(** X5. [ScalarBuffer.history_avg] returns null on an empty history, the
    mean of the values inside the window when there are any, and raises
    [ZeroDivisionError] when the history has entries but none inside the
    window. *)
Theorem scalar_history_avg_cases (sb : ScalarBuffer.t) (h : list (ObsTuple R))
    (now age : Z) :
  ScalarBuffer.history sb = Some h ->
  ScalarBuffer.history_avg sb now age
  = match h with
    | [] => Ok None
    | _ :: _ =>
      if bool_decide (Exists (fun a => (now - age <= ts a)%Z) h)
      then Ok (Some (py_sum (map value (filter (fun a => (now - age <= ts a)%Z) h))
                     / INR (length (filter (fun a => (now - age <= ts a)%Z) h)))%R)
      else Raise ZeroDivisionError
    end.
Proof.
  intros Hh. unfold ScalarBuffer.history_avg. rewrite Hh.
  cbn [getattr mbind result_bind].
  destruct h as [|e h]; [reflexivity|].
  change (0 <? length (e :: h))%nat with true. cbv iota.
  rewrite length_map. rewrite <- window_nonempty.
  destruct (length (filter (fun a => (now - age <= ts a)%Z) (e :: h))); reflexivity.
Qed.

Lemma scalar_history_avg_cases_witness :
  ScalarBuffer.history_avg
    (ScalarBuffer.set_history [mkObs 5%R 100; mkObs 3%R 900]
       (ScalarBuffer.init None None true false)) 1000 600
  = if bool_decide (Exists (fun a => (1000 - 600 <= ts a)%Z) [mkObs 5%R 100; mkObs 3%R 900])
    then Ok (Some (py_sum (map value (filter (fun a => (1000 - 600 <= ts a)%Z)
                                        [mkObs 5%R 100; mkObs 3%R 900]))
                   / INR (length (filter (fun a => (1000 - 600 <= ts a)%Z)
                                    [mkObs 5%R 100; mkObs 3%R 900])))%R)
    else Raise ZeroDivisionError.
Proof.
  apply (scalar_history_avg_cases
           (ScalarBuffer.set_history [mkObs 5%R 100; mkObs 3%R 900]
              (ScalarBuffer.init None None true false))
           [mkObs 5%R 100; mkObs 3%R 900] 1000 600).
  reflexivity.
Defined.

(** The component sums of [history_vec_avg] over entries of one direction. *)
Lemma vec_fold_common (c sn : R) (l : list (R * Z)) (x0 y0 : R) :
  fold_left
    (fun acc (sample : VectorBuffer.vec) =>
       (acc.1 + sample.1.1 * sample.1.2, acc.2 + sample.1.1 * sample.2)%R)
    (map (fun s : R * Z => (s.1, c, sn)) l) (x0, y0)
  = (x0 + py_sum (map fst l) * c, y0 + py_sum (map fst l) * sn)%R.
Proof.
  revert x0 y0. induction l as [|[v tm] l IH] using rev_ind; intros x0 y0.
  - unfold py_sum. simpl. f_equal; lra.
  - rewrite !map_app, fold_left_app, IH. simpl.
    change (map fst [(v, tm)]) with [v]. rewrite ScalarMore.py_sum_snoc.
    f_equal; lra.
Qed.

(** X8. The magnitude that [history_vec_avg] returns is that of the vector
    sum, not of a mean: for a history of entries inside the window that
    were all recorded at one direction [d], as [add_value] records them,
    with a sum of speeds that is not negative, the magnitude is the sum of
    the speeds. *)
Theorem history_vec_avg_is_sum (vb : VectorBuffer.t) (samples : list (R * Z))
    (d : R) (now age : Z) :
  VectorBuffer.history vb
  = Some (map (fun s : R * Z =>
                 mkObs (s.1, cos (radians (90 - d)), sin (radians (90 - d))) s.2)
            samples) ->
  samples <> [] ->
  Forall (fun s => now - age <= s.2) samples ->
  (0 <= py_sum (map fst samples))%R ->
  exists dir,
    VectorBuffer.history_vec_avg vb now age
    = Ok (Some (py_sum (map fst samples), dir)).
Proof.
  intros Hh Hne Hwin Hpos. unfold VectorBuffer.history_vec_avg. rewrite Hh.
  cbn [getattr mbind result_bind].
  set (c := cos (radians (90 - d))). set (sn := sin (radians (90 - d))).
  unfold VectorBuffer.vec in *.
  assert (Hfilter : filter (fun a : ObsTuple (R * R * R) => now - age <= ts a)
                      (map (fun s : R * Z => mkObs (s.1, c, sn) s.2) samples)
                    = map (fun s : R * Z => mkObs (s.1, c, sn) s.2) samples).
  { clear Hh Hne Hpos. induction Hwin as [|s l Hs _ IH]; [reflexivity|].
    simpl map. rewrite filter_cons_True by exact Hs. f_equal. exact IH. }
  rewrite Hfilter, !length_map.
  destruct samples as [|s0 l]; [contradiction|].
  change (0 <? length (s0 :: l))%nat with true. cbv iota.
  rewrite map_map. cbn [value].
  pose proof (vec_fold_common c sn (s0 :: l) 0 0) as Hfold.
  unfold VectorBuffer.vec in Hfold. rewrite Hfold.
  eexists. do 3 f_equal.
  set (S := py_sum (map fst (s0 :: l))) in *.
  replace ((0 + S * c) ^ 2 + (0 + S * sn) ^ 2)%R with (S ^ 2 * (sn² + c²))%R
    by (unfold Rsqr; ring).
  subst c sn. rewrite sin2_cos2, Rmult_1_r. apply sqrt_pow2. exact Hpos.
Qed.

Lemma history_vec_avg_is_sum_witness :
  exists dir,
    VectorBuffer.history_vec_avg
      (VectorBuffer.set_history
         (map (fun s : R * Z =>
                 mkObs (s.1, cos (radians (90 - 45)), sin (radians (90 - 45))) s.2)
            [(10%R, 900); (10%R, 950)])
         (VectorBuffer.init None None true false))
      1000 600
    = Ok (Some (py_sum (map fst [(10%R, 900); (10%R, 950)]), dir)).
Proof.
  apply (history_vec_avg_is_sum
           (VectorBuffer.set_history
              (map (fun s : R * Z =>
                      mkObs (s.1, cos (radians (90 - 45)), sin (radians (90 - 45))) s.2)
                 [(10%R, 900); (10%R, 950)])
              (VectorBuffer.init None None true false))
           [(10%R, 900); (10%R, 950)] 45%R 1000 600).
  - reflexivity.
  - discriminate.
  - repeat constructor; simpl; lia.
  - unfold py_sum. simpl. lra.
Defined.

End HistoryMore.

(** ** Buffer.clean *)

Module BufferMore.
Import Buffer.

(** X10. [clean(ts)] never returns: its first iteration, over ['windSpeed'],
    raises [KeyError] when the buffer has no such entry and [TypeError]
    otherwise, because the entry is a buffer object and cannot be
    subscripted with ['history']; no history is trimmed by it. *)
Theorem clean_never_returns (b : t) (now : Z) :
  clean b now
  = match items b !! "windSpeed" with
    | None => Raise KeyError
    | Some _ => Raise TypeError
    end.
Proof.
  unfold clean. cbn [HIST_MANIFEST fold_left mbind result_bind].
  destruct (items b !! "windSpeed"); reflexivity.
Qed.

End BufferMore.
